(** * Wii Remote reader: formatting and poll loop

    A shallow embedding of [pi/wii_remote_reader.py] and
    [pi/simple_wii_example.py].  Python integers are [Z], text is
    [string], the dictionary of button names is a [gmap], the printed
    output and the commands sent to the device are an explicit trace,
    and exceptions are an explicit result. *)

From Stdlib Require Import ZArith String Ascii List Lia.
From Stdlib Require Import DecimalString DecimalZ DecimalPos.
From Stdlib Require Import Floats.
From stdpp Require Import gmap strings list.

Open Scope Z_scope.

(** ** The Python runtime pieces the scripts rely on *)

Module Py.

(** [str(n)] for an integer: decimal digits, a leading minus sign. *)
Definition str (n : Z) : string := NilZero.string_of_int (Z.to_int n).

(** Reading a decimal text back, the inverse of [str]. *)
Definition int (s : string) : option Z :=
  option_map Z.of_int (NilZero.int_of_string s).

Definition spaces (n : nat) : string :=
  string_of_list_ascii (repeat " "%char n).

(** The format spec [{n:3d}]: decimal, right-aligned in a field of
    width 3; a longer text is left as it is. *)
Definition fmt_3d (n : Z) : string :=
  spaces (3 - String.length (str n)) +:+ str n.

(** [sep.join(l)] *)
Definition join (sep : string) (l : list string) : string :=
  String.concat sep l.

(** [c * n] for a one-character string [c]. *)
Definition times (c : ascii) (n : nat) : string :=
  string_of_list_ascii (repeat c n).

Fixpoint bin_digits (p : positive) : string :=
  match p with
  | xH => "1"
  | xO q => bin_digits q +:+ "0"
  | xI q => bin_digits q +:+ "1"
  end.

(** [bin(n)] *)
Definition bin (n : Z) : string :=
  match n with
  | Z0 => "0b0"
  | Zpos p => "0b" +:+ bin_digits p
  | Zneg p => "-0b" +:+ bin_digits p
  end.

(** Numbers as the device state may hold them: [int] or [float]
    (IEEE binary64). *)
Inductive num :=
| Int (z : Z)
| Float (f : float).

(** [v * 100], the integer operand converted when [v] is a float. *)
Definition mul100 (v : num) : num :=
  match v with
  | Int z => Int (z * 100)
  | Float f => Float (PrimFloat.mul f 100%float)
  end.

(** The exceptions the scripts distinguish.  [OtherError] stands for
    any subclass of [Exception] that is not a [RuntimeError];
    [KeyboardInterrupt] is not a subclass of [Exception]. *)
Inductive exn :=
| RuntimeError (msg : string)
| KeyboardInterrupt
| OtherError (msg : string).

Definition newline : string := String (ascii_of_nat 10) EmptyString.
Definition esc : string := String (ascii_of_nat 27) EmptyString.

End Py.

(** ** The constants of the [cwiid] binding

    The binding is an external library; the scripts only name its
    constants, so they are a parameter of the development. *)

Record cwiid_consts := {
  BTN_1 : Z; BTN_2 : Z; BTN_A : Z; BTN_B : Z;
  BTN_PLUS : Z; BTN_MINUS : Z; BTN_HOME : Z;
  BTN_LEFT : Z; BTN_RIGHT : Z; BTN_UP : Z; BTN_DOWN : Z;
  RPT_BTN : Z; RPT_ACC : Z; RPT_IR : Z;
  LED1_ON : Z
}.

(** The values of the constants in libcwiid's header. *)
Definition libcwiid : cwiid_consts := {|
  BTN_1 := 0x0002; BTN_2 := 0x0001; BTN_A := 0x0008; BTN_B := 0x0004;
  BTN_PLUS := 0x1000; BTN_MINUS := 0x0010; BTN_HOME := 0x0080;
  BTN_LEFT := 0x0100; BTN_RIGHT := 0x0200; BTN_UP := 0x0800;
  BTN_DOWN := 0x0400;
  RPT_BTN := 0x02; RPT_ACC := 0x04; RPT_IR := 0x08;
  LED1_ON := 0x01
|}.

(** ** The device and what the scripts do to the outside world *)

(** The dictionary [wiimote.state]: the button bitmask, the
    accelerometer triple, the IR slots (each [None] or a triple
    [x, y, size]) and the battery reading. *)
Record State := {
  buttons : Z;
  acc : Z * Z * Z;
  ir_src : list (option (Z * Z * Z));
  battery : Py.num
}.

(** The handle object returned by [cwiid.Wiimote()], with the state the
    driver last stored in it. *)
Record Wiimote := { state : State }.

(** Attribute writes and calls on the handle. *)
Inductive dev_op :=
| Set_rpt_mode (v : Z)
| Set_led (v : Z)
| Set_rumble (v : Z)
| Close.

(** One observable action of a script.  [PrintFixed1 pre v post] is
    [print(f"{pre}{v:.1f}{post}")]: the conversion of the number to
    text with one decimal is left to the runtime. *)
Inductive effect :=
| Print (s : string)
| PrintEnd (s : string)
| PrintFixed1 (pre : string) (v : Py.num) (post : string)
| Sleep (ms : Z)
| Dev (op : dev_op).

Definition trace := list effect.

(** What [cwiid.Wiimote()] does when it is called. *)
Inductive pairing :=
| Paired (w : Wiimote)
| PairingRaises (e : Py.exn).

(** What happens during one pass through a poll loop: the driver has
    stored [s] and the pass completes; the driver has stored [s] and the
    interrupt arrives while the pass sleeps; or reading the state
    raises. *)
Inductive poll_event :=
| Sample (s : State)
| SampleInterrupted (s : State)
| Fault (e : Py.exn).

(** The result of a call: a value, an exception, or [Pending] when the
    poll loop is still running after the last given event. *)
Inductive result (A : Type) :=
| Ret (a : A)
| Raise (e : Py.exn)
| Pending.
Arguments Ret {A} a.
Arguments Raise {A} e.
Arguments Pending {A}.

(** How the process ends: [main] returned (exit status 0), an exception
    reached the top level (traceback, exit status 1), or the loop is
    still polling. *)
Inductive outcome :=
| Exit0
| Traceback (e : Py.exn)
| StillPolling.

Definition outcome_of {A} (r : result A) : outcome :=
  match r with
  | Ret _ => Exit0
  | Raise e => Traceback e
  | Pending => StillPolling
  end.

Definition is_close (e : effect) : bool :=
  match e with
  | Dev Close => true
  | _ => false
  end.

(** The number of [close()] calls in a trace. *)
Definition closes (t : trace) : nat := List.length (List.filter is_close t).

(** A Python dictionary literal: a later entry replaces an earlier one
    with the same key. *)
Definition dict {V} (entries : list (Z * V)) : gmap Z V :=
  fold_left (fun m kv => <[kv.1 := kv.2]> m) entries ∅.

(** [buttons & code] used as a condition. *)
Definition truthy (n : Z) : bool := negb (n =? 0).

(** ** pi/wii_remote_reader.py *)

Module wii_remote_reader.
Section with_cwiid.

Variable cwiid : cwiid_consts.

Record WiiRemoteReader := {
  wiimote : option Wiimote;
  connected : bool;
  running : bool
}.

Definition __init__ : WiiRemoteReader :=
  {| wiimote := None; connected := false; running := false |}.

Definition connect (self : WiiRemoteReader) (p : pairing)
  : trace * WiiRemoteReader * result bool :=
  let t0 := [Print "Press 1+2 on your Wii remote to connect..."] in
  match p with
  | Paired w =>
      let self := {| wiimote := Some w; connected := true;
                     running := running self |} in
      (t0 ++ [Print "Connected to Wii remote!";
              Dev (Set_rpt_mode
                     (Z.lor (Z.lor (RPT_BTN cwiid) (RPT_ACC cwiid))
                            (RPT_IR cwiid)));
              Dev (Set_led (LED1_ON cwiid));
              Dev (Set_rumble 1);
              Sleep 500;
              Dev (Set_rumble 0)],
       self, Ret true)
  | PairingRaises (Py.RuntimeError e) =>
      (t0 ++ [Print ("Failed to connect: " +:+ e);
              Print "Make sure your Wii remote is in discoverable mode (press 1+2)"],
       self, Ret false)
  | PairingRaises e => (t0, self, Raise e)
  end.

Definition disconnect (self : WiiRemoteReader) : trace * WiiRemoteReader :=
  match wiimote self with
  | Some _ =>
      ([Dev Close; Print "Disconnected from Wii remote"],
       {| wiimote := wiimote self; connected := false;
          running := running self |})
  | None => ([], self)
  end.

Definition get_button_name (button : Z) : string :=
  let buttons : gmap Z string :=
    dict [(BTN_1 cwiid, "1"); (BTN_2 cwiid, "2");
          (BTN_A cwiid, "A"); (BTN_B cwiid, "B");
          (BTN_PLUS cwiid, "PLUS"); (BTN_MINUS cwiid, "MINUS");
          (BTN_HOME cwiid, "HOME");
          (BTN_LEFT cwiid, "LEFT"); (BTN_RIGHT cwiid, "RIGHT");
          (BTN_UP cwiid, "UP"); (BTN_DOWN cwiid, "DOWN")] in
  default ("UNKNOWN(" +:+ Py.str button +:+ ")") (buttons !! button).

Definition format_accelerometer (acc : Z * Z * Z) : string :=
  let '(x, y, z) := acc in
  "X: " +:+ Py.fmt_3d x +:+ ", Y: " +:+ Py.fmt_3d y
        +:+ ", Z: " +:+ Py.fmt_3d z.

(** The body of the loop of [format_ir], for the slot at index [i]. *)
Definition format_ir_step (ir_data : list string) (i : Z)
    (source : option (Z * Z * Z)) : list string :=
  match source with
  | Some (x, y, size) =>
      ir_data ++ ["Source" +:+ Py.str (i + 1) +:+ ": (" +:+ Py.fmt_3d x
                  +:+ ", " +:+ Py.fmt_3d y +:+ ") size:" +:+ Py.fmt_3d size]
  | None => ir_data
  end.

(** [for i, source in enumerate(ir)], from index [i] on. *)
Fixpoint format_ir_loop (ir_data : list string) (i : Z)
    (ir : list (option (Z * Z * Z))) : list string :=
  match ir with
  | [] => ir_data
  | source :: rest => format_ir_loop (format_ir_step ir_data i source) (i + 1) rest
  end.

Definition format_ir (ir : list (option (Z * Z * Z))) : string :=
  match ir with
  | [] => "No IR sources detected"
  | _ =>
      match format_ir_loop [] 0 ir with
      | [] => "No IR sources detected"
      | ir_data => Py.join " | " ir_data
      end
  end.

Definition get_battery_level (self : WiiRemoteReader) : Py.num :=
  match wiimote self with
  | Some w => Py.mul100 (battery (state w))
  | None => Py.Int 0
  end.

(** The button codes in the order [read_inputs] tests them. *)
Definition button_codes : list Z :=
  [BTN_1 cwiid; BTN_2 cwiid; BTN_A cwiid; BTN_B cwiid;
   BTN_PLUS cwiid; BTN_MINUS cwiid; BTN_HOME cwiid;
   BTN_LEFT cwiid; BTN_RIGHT cwiid; BTN_UP cwiid; BTN_DOWN cwiid].

(** The list [pressed_buttons] after the [for] loop of [read_inputs]. *)
Definition pressed_buttons (buttons : Z) : list string :=
  fold_left
    (fun pressed button_code =>
       if truthy (Z.land buttons button_code)
       then pressed ++ [get_button_name button_code]
       else pressed)
    button_codes [].

(** The line [read_inputs] prints for the buttons. *)
Definition buttons_line (buttons : Z) : string :=
  if truthy buttons then
    match pressed_buttons buttons with
    | [] => "Buttons: None"
    | pressed => "Buttons: " +:+ Py.join ", " pressed
    end
  else "Buttons: None".

(** What one pass of the loop of [read_inputs] prints, the handle
    holding [state w]. *)
Definition frame (self : WiiRemoteReader) (w : Wiimote) : trace :=
  let state := state w in
  [PrintEnd (Py.esc +:+ "[2J" +:+ Py.esc +:+ "[H");
   Print "=== Wii Remote Input Reader ===";
   PrintFixed1 "Battery: " (get_battery_level self) "%";
   Print (Py.times "=" 30);
   Print (buttons_line (buttons state));
   Print ("Accelerometer: " +:+ format_accelerometer (acc state));
   Print ("IR Sensor: " +:+ format_ir (ir_src state));
   Print ("Raw Button State: " +:+ Py.bin (buttons state));
   Print (Py.newline +:+ "Press Ctrl+C to exit")].

(** The driver stores a new state in the handle the reader holds. *)
Definition refresh (self : WiiRemoteReader) (s : State) : WiiRemoteReader :=
  {| wiimote := option_map (fun _ => {| state := s |}) (wiimote self);
     connected := connected self; running := running self |}.

Definition stop (self : WiiRemoteReader) : WiiRemoteReader :=
  {| wiimote := wiimote self; connected := connected self;
     running := false |}.

Definition no_handle_message : string :=
  "'NoneType' object has no attribute 'state'".

(** [while self.running and self.connected: try: ... except ...] *)
Fixpoint poll (self : WiiRemoteReader) (events : list poll_event)
  : trace * WiiRemoteReader * result unit :=
  if running self && connected self then
    match events with
    | [] => ([], self, Pending)
    | ev :: events =>
        match ev with
        | Fault Py.KeyboardInterrupt =>
            ([Print (Py.newline +:+ "Exiting...")], stop self, Ret tt)
        | Fault (Py.RuntimeError e) | Fault (Py.OtherError e) =>
            ([Print ("Error reading input: " +:+ e)], self, Ret tt)
        | Sample s =>
            let self := refresh self s in
            match wiimote self with
            | None =>
                ([Print ("Error reading input: " +:+ no_handle_message)],
                 self, Ret tt)
            | Some w =>
                let '(t, self', r) := poll self events in
                (frame self w ++ [Sleep 100] ++ t, self', r)
            end
        | SampleInterrupted s =>
            let self := refresh self s in
            match wiimote self with
            | None =>
                ([Print ("Error reading input: " +:+ no_handle_message)],
                 self, Ret tt)
            | Some w =>
                (frame self w ++ [Print (Py.newline +:+ "Exiting...")],
                 stop self, Ret tt)
            end
        end
    end
  else ([], self, Ret tt).

Definition read_inputs (self : WiiRemoteReader) (events : list poll_event)
  : trace * WiiRemoteReader * result unit :=
  let t0 := [Print (Py.newline +:+ "=== Wii Remote Input Reader ===");
             Print "Press Ctrl+C to exit";
             Print (Py.times "=" 30)] in
  let self := {| wiimote := wiimote self; connected := connected self;
                 running := true |} in
  let '(t, self, r) := poll self events in
  (t0 ++ t, self, r).

(** [try: body finally: self.disconnect()]: the [finally] block runs
    when the body returns or raises, not while it is still running. *)
Definition start (self : WiiRemoteReader) (p : pairing)
    (events : list poll_event) : trace * WiiRemoteReader * result unit :=
  match connect self p with
  | (t, self, Ret true) =>
      let '(t1, self, r) := read_inputs self events in
      match r with
      | Pending => (t ++ t1, self, Pending)
      | _ =>
          let '(t2, self) := disconnect self in
          (t ++ t1 ++ t2, self, r)
      end
  | (t, self, Ret false) =>
      (t ++ [Print "Could not connect to Wii remote"], self, Ret tt)
  | (t, self, Raise e) => (t, self, Raise e)
  | (t, self, Pending) => (t, self, Pending)
  end.

Definition main (p : pairing) (events : list poll_event) : trace * outcome :=
  let t0 := [Print "Wii Remote Input Reader";
             Print "Make sure your Wii remote is in discoverable mode";
             Print "(Press and hold the 1 and 2 buttons simultaneously)"] in
  let reader := __init__ in
  let '(t, _, r) := start reader p events in
  (t0 ++ t, outcome_of r).

End with_cwiid.
End wii_remote_reader.

(** ** pi/simple_wii_example.py *)

Module simple_wii_example.
Section with_cwiid.

Variable cwiid : cwiid_consts.

(** The values bound to the local variables of [main]. *)
Inductive value :=
| VWiimote (w : Wiimote)
| VInt (n : Z).

(** [if cond: print(s)] *)
Definition print_if (cond : bool) (s : string) : trace :=
  if cond then [Print s] else [].

(** The [if] statements of the loop for the buttons A, B, 1 and 2. *)
Definition report (buttons : Z) : trace :=
  print_if (truthy (Z.land buttons (BTN_A cwiid))) "A button pressed!"
  ++ print_if (truthy (Z.land buttons (BTN_B cwiid))) "B button pressed!"
  ++ print_if (truthy (Z.land buttons (BTN_1 cwiid))) "1 button pressed!"
  ++ print_if (truthy (Z.land buttons (BTN_2 cwiid))) "2 button pressed!".

(** [while True: ...] *)
Fixpoint loop (locals : gmap string value) (events : list poll_event)
  : trace * gmap string value * result unit :=
  match events with
  | [] => ([], locals, Pending)
  | Fault e :: _ => ([], locals, Raise e)
  | Sample s :: events' =>
      let buttons := buttons s in
      let locals := <["buttons" := VInt buttons]> locals in
      let t := report buttons in
      if truthy (Z.land buttons (BTN_HOME cwiid)) then
        (t ++ [Print "HOME button pressed!"], locals, Ret tt)
      else
        let '(t', locals', r) := loop locals events' in
        (t ++ [Sleep 100] ++ t', locals', r)
  | SampleInterrupted s :: _ =>
      let buttons := buttons s in
      let locals := <["buttons" := VInt buttons]> locals in
      let t := report buttons in
      if truthy (Z.land buttons (BTN_HOME cwiid)) then
        (t ++ [Print "HOME button pressed!"], locals, Ret tt)
      else
        (t, locals, Raise Py.KeyboardInterrupt)
  end.

(** The body of the [try] statement of [main]. *)
Definition try_body (p : pairing) (events : list poll_event)
  : trace * gmap string value * result unit :=
  match p with
  | PairingRaises e => ([], ∅, Raise e)
  | Paired w =>
      let locals : gmap string value := {["wiimote" := VWiimote w]} in
      let t := [Print "Connected!";
                Dev (Set_rpt_mode (RPT_BTN cwiid));
                Dev (Set_led (LED1_ON cwiid));
                Dev (Set_rumble 1);
                Sleep 500;
                Dev (Set_rumble 0);
                Print "Press buttons on your Wii remote (Ctrl+C to exit)"] in
      let '(t', locals, r) := loop locals events in
      (t ++ t', locals, r)
  end.

(** The [except] clauses of [main]. *)
Definition handlers (r : result unit) : trace * result unit :=
  match r with
  | Raise (Py.RuntimeError _) =>
      ([Print "Failed to connect. Make sure your Wii remote is in discoverable mode."],
       Ret tt)
  | Raise Py.KeyboardInterrupt =>
      ([Print (Py.newline +:+ "Exiting...")], Ret tt)
  | r => ([], r)
  end.

(** The [finally] block of [main]: [if 'wiimote' in locals(): wiimote.close()] *)
Definition finally (locals : gmap string value) : trace :=
  if bool_decide (is_Some (locals !! "wiimote")) then [Dev Close] else [].

Definition main (p : pairing) (events : list poll_event) : trace * outcome :=
  let t0 := [Print "Simple Wii Remote Example";
             Print "Press 1+2 on your Wii remote to connect..."] in
  let '(t1, locals, r) := try_body p events in
  match r with
  | Pending => (t0 ++ t1, StillPolling)
  | _ =>
      let '(t2, r) := handlers r in
      (t0 ++ t1 ++ t2 ++ finally locals, outcome_of r)
  end.

End with_cwiid.
End simple_wii_example.

(** ** The buttons as the specification names them *)

Inductive Button :=
| B_1 | B_2 | B_A | B_B | B_PLUS | B_MINUS | B_HOME
| B_LEFT | B_RIGHT | B_UP | B_DOWN.

#[global] Instance Button_eq_dec : EqDecision Button.
Proof. solve_decision. Defined.

(** The fixed declared order. *)
Definition declared_order : list Button :=
  [B_1; B_2; B_A; B_B; B_PLUS; B_MINUS; B_HOME; B_LEFT; B_RIGHT; B_UP; B_DOWN].

Definition label (b : Button) : string :=
  match b with
  | B_1 => "1" | B_2 => "2" | B_A => "A" | B_B => "B"
  | B_PLUS => "PLUS" | B_MINUS => "MINUS" | B_HOME => "HOME"
  | B_LEFT => "LEFT" | B_RIGHT => "RIGHT" | B_UP => "UP" | B_DOWN => "DOWN"
  end.

(** The code of a button in the binding. *)
Definition code (cwiid : cwiid_consts) (b : Button) : Z :=
  match b with
  | B_1 => BTN_1 cwiid | B_2 => BTN_2 cwiid
  | B_A => BTN_A cwiid | B_B => BTN_B cwiid
  | B_PLUS => BTN_PLUS cwiid | B_MINUS => BTN_MINUS cwiid
  | B_HOME => BTN_HOME cwiid
  | B_LEFT => BTN_LEFT cwiid | B_RIGHT => BTN_RIGHT cwiid
  | B_UP => BTN_UP cwiid | B_DOWN => BTN_DOWN cwiid
  end.

(** The position of the bit of a button. *)
Definition bit (cwiid : cwiid_consts) (b : Button) : Z := Z.log2 (code cwiid b).

(** [b] is pressed in the bitmask [B]. *)
Definition pressed (cwiid : cwiid_consts) (B : Z) (b : Button) : bool :=
  Z.testbit B (bit cwiid b).

Definition single_bit (n : Z) : bool := (0 <? n) && (n =? 2 ^ Z.log2 n).

Fixpoint distinct (l : list Z) : bool :=
  match l with
  | [] => true
  | x :: l' => negb (existsb (Z.eqb x) l') && distinct l'
  end.

(** The button codes are one bit each, at different positions. *)
Definition button_bits (cwiid : cwiid_consts) : bool :=
  forallb single_bit (map (code cwiid) declared_order)
  && distinct (map (code cwiid) declared_order).

(** The button codes are different integers. *)
Definition button_codes_distinct (cwiid : cwiid_consts) : bool :=
  distinct (map (code cwiid) declared_order).

(** ** The IR slots as the specification names them *)

(** "Source{index+1}: (x, y) size:{size}", the numbers in fields of
    width 3. *)
Definition render_slot (index : nat) (source : Z * Z * Z) : string :=
  let '(x, y, size) := source in
  "Source" +:+ Py.str (Z.of_nat index + 1) +:+ ": (" +:+ Py.fmt_3d x
    +:+ ", " +:+ Py.fmt_3d y +:+ ") size:" +:+ Py.fmt_3d size.

(** The present slots of [ir] with their indices, in index order, the
    first slot having index [k]. *)
Definition slots_from (k : nat) (ir : list (option (Z * Z * Z)))
  : list (nat * (Z * Z * Z)) :=
  omap (fun io : nat * option (Z * Z * Z) => pair io.1 <$> io.2)
       (zip (seq k (List.length ir)) ir).

Definition present_slots (ir : list (option (Z * Z * Z)))
  : list (nat * (Z * Z * Z)) := slots_from 0 ir.

Definition absent (source : option (Z * Z * Z)) : bool :=
  match source with
  | None => true
  | Some _ => false
  end.

(** A reading that takes at most three characters. *)
Definition three_columns (n : Z) : bool := (-99 <=? n) && (n <=? 999).

(** ** The two scripts side by side *)

Inductive variant := Reader | Simple.

Definition run (v : variant) (cwiid : cwiid_consts) (p : pairing)
    (events : list poll_event) : trace * outcome :=
  match v with
  | Reader => wii_remote_reader.main cwiid p events
  | Simple => simple_wii_example.main cwiid p events
  end.

Definition home_pressed (cwiid : cwiid_consts) (s : State) : bool :=
  truthy (Z.land (buttons s) (BTN_HOME cwiid)).

(** The events that end the poll loop of a script: an interrupt or a
    failed read in both, a snapshot with HOME pressed in the simple
    one. *)
Definition ends_loop (cwiid : cwiid_consts) (v : variant) (ev : poll_event) : bool :=
  match ev with
  | Fault _ => true
  | SampleInterrupted _ => true
  | Sample s =>
      match v with
      | Simple => home_pressed cwiid s
      | Reader => false
      end
  end.

Definition terminated (o : outcome) : bool :=
  match o with
  | StillPolling => false
  | _ => true
  end.

(** A snapshot without HOME that the loop of the simple script passes. *)
Definition passes (cwiid : cwiid_consts) (ev : poll_event) : bool :=
  match ev with
  | Sample s => negb (home_pressed cwiid s)
  | _ => false
  end.

(** A snapshot with the button bitmask [b], the accelerometer at
    mid-scale, no IR source and a half-full battery. *)
Definition snapshot (b : Z) : State :=
  {| buttons := b; acc := (512, 512, 512);
     ir_src := [None; None; None; None];
     battery := Py.Float 0.5%float |}.

(** [s] is the decimal text of [n], right-aligned with spaces in a
    field of [width] columns; a longer text takes the columns it needs. *)
Definition right_aligned (width : nat) (n : Z) (s : string) : Prop :=
  exists (pad : nat) (digits : string),
    s = Py.spaces pad +:+ digits
    /\ Py.int digits = Some n
    /\ String.length s = Nat.max width (String.length digits).

(** ** What a trace does to the handle and to the clock *)

(** The operations on the handle in a trace, in order. *)
Definition dev_ops (t : trace) : list dev_op :=
  omap (fun e => match e with Dev op => Some op | _ => None end) t.

(** The time a trace sleeps, in milliseconds. *)
Definition slept (t : trace) : Z :=
  fold_right (fun e ms => match e with Sleep n => n + ms | _ => ms end) 0 t.

(** The operations with which a script configures a new handle. *)
Definition configuration (cwiid : cwiid_consts) (v : variant) : list dev_op :=
  [Set_rpt_mode
     match v with
     | Reader => Z.lor (Z.lor (RPT_BTN cwiid) (RPT_ACC cwiid)) (RPT_IR cwiid)
     | Simple => RPT_BTN cwiid
     end;
   Set_led (LED1_ON cwiid); Set_rumble 1; Set_rumble 0].

(** The event that ends the poll loop of a script, if any. *)
Definition ending (cwiid : cwiid_consts) (v : variant) (events : list poll_event)
  : option poll_event := List.find (ends_loop cwiid v) events.

(** The number of passes a loop completes before it ends. *)
Fixpoint completed_passes (cwiid : cwiid_consts) (v : variant)
    (events : list poll_event) : nat :=
  match events with
  | [] => 0
  | ev :: events' =>
      if ends_loop cwiid v ev then 0%nat
      else S (completed_passes cwiid v events')
  end.

(** What a script prints last when the event [ev] ends its loop. *)
Definition last_words (cwiid : cwiid_consts) (v : variant) (ev : poll_event) : trace :=
  match v, ev with
  | Reader, Fault (Py.RuntimeError e) | Reader, Fault (Py.OtherError e) =>
      [Print ("Error reading input: " +:+ e)]
  | Reader, _ => [Print (Py.newline +:+ "Exiting...")]
  | Simple, Fault (Py.RuntimeError _) =>
      [Print "Failed to connect. Make sure your Wii remote is in discoverable mode."]
  | Simple, Fault (Py.OtherError _) => []
  | Simple, Fault Py.KeyboardInterrupt => [Print (Py.newline +:+ "Exiting...")]
  | Simple, Sample s => [Print "HOME button pressed!"]
  | Simple, SampleInterrupted s =>
      if home_pressed cwiid s then [Print "HOME button pressed!"]
      else [Print (Py.newline +:+ "Exiting...")]
  end.

(** How a script exits when the event [ev] ends its loop. *)
Definition exit_of (v : variant) (ev : poll_event) : outcome :=
  match v, ev with
  | Simple, Fault (Py.OtherError e) => Traceback (Py.OtherError e)
  | _, _ => Exit0
  end.

(** The bits of all the button codes. *)
Definition known_mask (cwiid : cwiid_consts) : Z :=
  fold_right Z.lor 0 (map (code cwiid) declared_order).

(** The buttons the loop of the simple script reports, in the order of
    its tests. *)
Definition reported : list Button := [B_A; B_B; B_1; B_2].

(** What a script prints and does between its start and the first pass
    of its poll loop, the pairing having succeeded. *)
Definition prologue (cwiid : cwiid_consts) (v : variant) : trace :=
  match v with
  | Reader =>
      [Print "Wii Remote Input Reader";
       Print "Make sure your Wii remote is in discoverable mode";
       Print "(Press and hold the 1 and 2 buttons simultaneously)";
       Print "Press 1+2 on your Wii remote to connect...";
       Print "Connected to Wii remote!";
       Dev (Set_rpt_mode
              (Z.lor (Z.lor (RPT_BTN cwiid) (RPT_ACC cwiid)) (RPT_IR cwiid)));
       Dev (Set_led (LED1_ON cwiid));
       Dev (Set_rumble 1);
       Sleep 500;
       Dev (Set_rumble 0);
       Print (Py.newline +:+ "=== Wii Remote Input Reader ===");
       Print "Press Ctrl+C to exit";
       Print (Py.times "=" 30)]
  | Simple =>
      [Print "Simple Wii Remote Example";
       Print "Press 1+2 on your Wii remote to connect...";
       Print "Connected!";
       Dev (Set_rpt_mode (RPT_BTN cwiid));
       Dev (Set_led (LED1_ON cwiid));
       Dev (Set_rumble 1);
       Sleep 500;
       Dev (Set_rumble 0);
       Print "Press buttons on your Wii remote (Ctrl+C to exit)"]
  end.

(** What a script prints and does after its loop has ended. *)
Definition epilogue (v : variant) : trace :=
  match v with
  | Reader => [Dev Close; Print "Disconnected from Wii remote"]
  | Simple => [Dev Close]
  end.

(** The reader as [connect] leaves it, with the flag [read_inputs] sets. *)
Definition polling_reader (w : Wiimote) : wii_remote_reader.WiiRemoteReader :=
  {| wii_remote_reader.wiimote := Some w;
     wii_remote_reader.connected := true;
     wii_remote_reader.running := true |}.

(** * Properties *)

(** ** Text *)

Lemma string_length_app (s t : string) :
  String.length (s +:+ t) = (String.length s + String.length t)%nat.
Proof. induction s as [|c s IH]; simpl; [reflexivity | now rewrite IH]. Qed.

Lemma spaces_length (n : nat) : String.length (Py.spaces n) = n.
Proof.
  unfold Py.spaces. induction n as [|n IH]; simpl; [reflexivity | now rewrite IH].
Qed.

Lemma fmt_3d_length (n : Z) :
  String.length (Py.fmt_3d n) = Nat.max 3 (String.length (Py.str n)).
Proof.
  unfold Py.fmt_3d. rewrite string_length_app, spaces_length. lia.
Qed.

Lemma to_int_not_nil (n : Z) :
  Z.to_int n <> Decimal.Pos Decimal.Nil /\ Z.to_int n <> Decimal.Neg Decimal.Nil.
Proof.
  destruct n as [|p|p]; simpl; split; try discriminate;
    intros H; injection H as H; now apply Unsigned.to_uint_nonnil in H.
Qed.

(** The text of an integer reads back as that integer. *)
Lemma int_str (n : Z) : Py.int (Py.str n) = Some n.
Proof.
  unfold Py.int, Py.str.
  destruct (to_int_not_nil n) as [Hp Hn].
  rewrite NilZero.isi by assumption. simpl. now rewrite DecimalZ.of_to.
Qed.

Lemma three_columns_width (n : Z) :
  three_columns n = true -> String.length (Py.fmt_3d n) = 3%nat.
Proof.
  intros H.
  assert (Hall : forallb (fun k => Nat.eqb (String.length (Py.fmt_3d k)) 3)
                         (seqZ (-99) 1099) = true) by (vm_compute; reflexivity).
  rewrite forallb_forall in Hall.
  apply Nat.eqb_eq, Hall, list_elem_of_In, elem_of_seqZ.
  unfold three_columns in H. lia.
Qed.

(** ** Dictionaries *)

Lemma dict_fold_absent {V} (l : list (Z * V)) (m : gmap Z V) (k : Z) :
  k ∉ l.*1 ->
  fold_left (fun m kv => <[kv.1 := kv.2]> m) l m !! k = m !! k.
Proof.
  revert m. induction l as [|[k' v'] l IH]; intros m Hk; simpl; [reflexivity|].
  rewrite fmap_cons, not_elem_of_cons in Hk. destruct Hk as [Hne Hk].
  rewrite IH by assumption. simpl in Hne. now rewrite lookup_insert_ne.
Qed.

Lemma dict_fold_present {V} (l : list (Z * V)) (m : gmap Z V) (k : Z) (v : V) :
  NoDup l.*1 -> (k, v) ∈ l ->
  fold_left (fun m kv => <[kv.1 := kv.2]> m) l m !! k = Some v.
Proof.
  revert m. induction l as [|[k' v'] l IH]; intros m Hnd Hin; simpl.
  - now apply elem_of_nil in Hin.
  - rewrite fmap_cons in Hnd. apply NoDup_cons in Hnd as [Hfresh Hnd].
    apply elem_of_cons in Hin as [Heq | Hin].
    + injection Heq as -> ->. rewrite dict_fold_absent by assumption.
      simpl. apply lookup_insert_eq.
    + now apply IH.
Qed.

Lemma distinct_NoDup (l : list Z) : distinct l = true -> NoDup l.
Proof.
  induction l as [|x l IH]; simpl; intros H; [constructor|].
  apply andb_true_iff in H as [Hx Hl]. constructor; [|now apply IH].
  intros Hin. apply negb_true_iff in Hx.
  assert (existsb (Z.eqb x) l = true); [|congruence].
  apply existsb_exists. exists x. split; [now apply list_elem_of_In | apply Z.eqb_refl].
Qed.

(** ** Button names *)

Lemma in_declared_order (b : Button) : b ∈ declared_order.
Proof. unfold declared_order. destruct b; set_solver. Qed.

Lemma code_inj (cwiid : cwiid_consts) (b b' : Button) :
  button_codes_distinct cwiid = true -> code cwiid b = code cwiid b' -> b = b'.
Proof.
  intros Hd Heq. apply distinct_NoDup in Hd.
  assert (Hinj : forall l : list Button, NoDup (code cwiid <$> l) ->
            forall x y, x ∈ l -> y ∈ l -> code cwiid x = code cwiid y -> x = y).
  { induction l as [|a l IH]; intros Hnd x y Hx Hy Hxy.
    - now apply elem_of_nil in Hx.
    - rewrite fmap_cons in Hnd. apply NoDup_cons in Hnd as [Ha Hnd].
      apply elem_of_cons in Hx as [-> | Hx]; apply elem_of_cons in Hy as [-> | Hy].
      + reflexivity.
      + exfalso. apply Ha. rewrite Hxy. now apply list_elem_of_fmap_2.
      + exfalso. apply Ha. rewrite <- Hxy. now apply list_elem_of_fmap_2.
      + now apply IH. }
  apply (Hinj declared_order Hd); auto using in_declared_order.
Qed.

Lemma button_name_entries (cwiid : cwiid_consts) (button : Z) :
  wii_remote_reader.get_button_name cwiid button =
  default ("UNKNOWN(" +:+ Py.str button +:+ ")")
    (dict ((fun b => (code cwiid b, label b)) <$> declared_order) !! button).
Proof. reflexivity. Qed.

Lemma get_button_name_known (cwiid : cwiid_consts) (b : Button) :
  button_codes_distinct cwiid = true ->
  wii_remote_reader.get_button_name cwiid (code cwiid b) = label b.
Proof.
  intros Hd. rewrite button_name_entries. unfold dict.
  rewrite (dict_fold_present _ _ _ (label b)); [reflexivity | |].
  - rewrite <- list_fmap_compose. apply distinct_NoDup in Hd. exact Hd.
  - apply (list_elem_of_fmap_2 (fun b => (code cwiid b, label b))), in_declared_order.
Qed.

Lemma get_button_name_unknown (cwiid : cwiid_consts) (button : Z) :
  (forall b, button <> code cwiid b) ->
  wii_remote_reader.get_button_name cwiid button
  = "UNKNOWN(" +:+ Py.str button +:+ ")".
Proof.
  intros Hne. rewrite button_name_entries. unfold dict.
  rewrite dict_fold_absent; [now rewrite lookup_empty|].
  rewrite <- list_fmap_compose. intros Hin.
  apply list_elem_of_fmap in Hin as [b [Hb _]]. now apply (Hne b).
Qed.

(** C8: [get_button_name] returns a text for every integer: the display
    label for each of the eleven button codes (which are different
    integers), and "UNKNOWN(code)", the code in decimal, for every other
    integer. *)
Theorem get_button_name_total (cwiid : cwiid_consts) (button : Z)
    (Hdistinct : button_codes_distinct cwiid = true) :
  (forall b, button = code cwiid b ->
             wii_remote_reader.get_button_name cwiid button = label b)
  /\ ((forall b, button <> code cwiid b) ->
      wii_remote_reader.get_button_name cwiid button
      = "UNKNOWN(" +:+ Py.str button +:+ ")"
      /\ Py.int (Py.str button) = Some button).
Proof.
  split.
  - intros b ->. now apply get_button_name_known.
  - intros Hne. split; [now apply get_button_name_unknown | apply int_str].
Qed.

Lemma get_button_name_total_witness :
  button_codes_distinct libcwiid = true
  /\ wii_remote_reader.get_button_name libcwiid 8 = "A"
  /\ wii_remote_reader.get_button_name libcwiid 7 = "UNKNOWN(7)".
Proof.
  split; [reflexivity|]. split.
  - apply (proj1 (get_button_name_total libcwiid 8 eq_refl) B_A). reflexivity.
  - apply (proj2 (get_button_name_total libcwiid 7 eq_refl)).
    intros b; destruct b; discriminate.
Defined.

(** ** The button line *)

Lemma single_bit_pow2 (n : Z) :
  single_bit n = true -> 0 <= Z.log2 n /\ n = 2 ^ Z.log2 n.
Proof.
  unfold single_bit. intros H. apply andb_true_iff in H as [_ H].
  apply Z.eqb_eq in H. split; [apply Z.log2_nonneg | exact H].
Qed.

(** Masking with a one-bit code tests that bit. *)
Lemma truthy_land_single_bit (B n : Z) :
  single_bit n = true -> truthy (Z.land B n) = Z.testbit B (Z.log2 n).
Proof.
  intros H. apply single_bit_pow2 in H as [Hk Hn].
  set (k := Z.log2 n) in *. rewrite Hn. unfold truthy.
  destruct (Z.testbit B k) eqn:Hb.
  - apply negb_true_iff, Z.eqb_neq. intros H0.
    assert (Hk' : Z.testbit (Z.land B (2 ^ k)) k = true)
      by (rewrite Z.land_spec, Hb, Z.pow2_bits_true by assumption; reflexivity).
    rewrite H0, Z.bits_0 in Hk'. discriminate.
  - apply negb_false_iff, Z.eqb_eq, Z.bits_inj'. intros i Hi.
    rewrite Z.land_spec, Z.bits_0, Z.pow2_bits_eqb by assumption.
    destruct (Z.eqb_spec k i) as [<- | _]; [now rewrite Hb | apply andb_false_r].
Qed.

Lemma button_bits_single (cwiid : cwiid_consts) (b : Button) :
  button_bits cwiid = true -> single_bit (code cwiid b) = true.
Proof.
  intros H. apply andb_true_iff in H as [H _].
  rewrite forallb_forall in H. apply H, in_map, list_elem_of_In, in_declared_order.
Qed.

Lemma button_bits_distinct (cwiid : cwiid_consts) :
  button_bits cwiid = true -> button_codes_distinct cwiid = true.
Proof. intros H. now apply andb_true_iff in H as [_ H]. Qed.

(** The [for] loop of [read_inputs] is a filter followed by a map. *)
Lemma append_loop {A} (p : Z -> bool) (f : Z -> A) (codes : list Z) (pressed : list A) :
  fold_left (fun pressed c => if p c then pressed ++ [f c] else pressed) codes pressed
  = pressed ++ map f (List.filter p codes).
Proof.
  revert pressed. induction codes as [|c codes IH]; intros pressed; simpl.
  - now rewrite app_nil_r.
  - rewrite IH. destruct (p c); simpl; [now rewrite <- app_assoc | reflexivity].
Qed.

Lemma filter_map_comm {A B} (p : B -> bool) (f : A -> B) (l : list A) :
  List.filter p (map f l) = map f (List.filter (fun a => p (f a)) l).
Proof.
  induction l as [|a l IH]; simpl; [reflexivity|].
  destruct (p (f a)); simpl; now rewrite IH.
Qed.

Lemma pressed_buttons_labels (cwiid : cwiid_consts) (B : Z) :
  button_bits cwiid = true ->
  wii_remote_reader.pressed_buttons cwiid B
  = map label (List.filter (pressed cwiid B) declared_order).
Proof.
  intros Hbits. unfold wii_remote_reader.pressed_buttons.
  change (wii_remote_reader.button_codes cwiid) with (map (code cwiid) declared_order).
  rewrite (append_loop (fun c => truthy (Z.land B c))
             (wii_remote_reader.get_button_name cwiid)).
  rewrite app_nil_l, filter_map_comm, map_map.
  rewrite (List.filter_ext (fun a => truthy (Z.land B (code cwiid a))) (pressed cwiid B)).
  - apply map_ext. intros b.
    apply get_button_name_known, button_bits_distinct, Hbits.
  - intros b. apply truthy_land_single_bit, button_bits_single, Hbits.
Qed.

(** A joined list of labels never reads "None". *)
Lemma labels_not_none (b : Button) (rest : list Button) :
  "Buttons: " +:+ Py.join ", " (map label (b :: rest)) <> "Buttons: None".
Proof.
  destruct b, rest as [|b' rest]; simpl; intros H; discriminate H.
Qed.

Lemma pressed_zero (cwiid : cwiid_consts) :
  List.filter (pressed cwiid 0) declared_order = [].
Proof.
  unfold pressed. induction declared_order as [|b l IH]; simpl; [reflexivity|].
  now rewrite Z.bits_0.
Qed.

Lemma buttons_line_shown (cwiid : cwiid_consts) (B : Z) :
  button_bits cwiid = true ->
  wii_remote_reader.buttons_line cwiid B
  = match List.filter (pressed cwiid B) declared_order with
    | [] => "Buttons: None"
    | shown => "Buttons: " +:+ Py.join ", " (map label shown)
    end.
Proof.
  intros Hbits. unfold wii_remote_reader.buttons_line.
  rewrite pressed_buttons_labels by assumption.
  destruct (truthy B) eqn:HB.
  - now destruct (List.filter (pressed cwiid B) declared_order).
  - apply negb_false_iff, Z.eqb_eq in HB. subst B. now rewrite pressed_zero.
Qed.

(** C1, as amended: for every button bitmask [B], the button line lists
    exactly the labels of the buttons whose bit is set in [B], in the
    declared order, joined with ", "; it reads "None" exactly when no
    known bit is set in [B], which includes [B = 0]. *)
Theorem buttons_line_known_bits (cwiid : cwiid_consts) (B : Z)
    (Hbits : button_bits cwiid = true) :
  let shown := List.filter (pressed cwiid B) declared_order in
  wii_remote_reader.buttons_line cwiid B
  = "Buttons: " +:+ match shown with
                    | [] => "None"
                    | _ => Py.join ", " (map label shown)
                    end
  /\ (wii_remote_reader.buttons_line cwiid B = "Buttons: None" <-> shown = [])
  /\ (B = 0 -> shown = []).
Proof.
  intros shown. pose proof (buttons_line_shown cwiid B Hbits) as Hline.
  fold shown in Hline. split; [|split].
  - rewrite Hline. now destruct shown.
  - rewrite Hline. destruct shown as [|b rest]; [tauto|].
    split; [intros H; now apply labels_not_none in H | discriminate].
  - intros ->. apply pressed_zero.
Qed.

Lemma buttons_line_known_bits_witness :
  button_bits libcwiid = true
  /\ wii_remote_reader.buttons_line libcwiid 0x88 = "Buttons: A, HOME".
Proof.
  split; [reflexivity|].
  exact (proj1 (buttons_line_known_bits libcwiid 0x88 eq_refl)).
Defined.

(** Whatever single bits the button codes are, some nonzero bitmask has
    none of them set and reads "None". *)
Lemma unknown_bit_reads_none (cwiid : cwiid_consts) :
  button_bits cwiid = true ->
  exists B, B <> 0 /\ wii_remote_reader.buttons_line cwiid B = "Buttons: None".
Proof.
  intros Hbits.
  set (k := 1 + fold_right Z.add 0 (map (bit cwiid) declared_order)).
  assert (Hlt : forall b, bit cwiid b < k).
  { assert (Hsum : forall l : list Button, forall b, b ∈ l ->
              bit cwiid b <= fold_right Z.add 0 (map (bit cwiid) l)
              /\ 0 <= fold_right Z.add 0 (map (bit cwiid) l)).
    { induction l as [|a l IH]; intros b Hb; [now apply elem_of_nil in Hb|].
      simpl. pose proof (Z.log2_nonneg (code cwiid a)) as Ha. fold (bit cwiid a) in Ha.
      apply elem_of_cons in Hb as [-> | Hb].
      - destruct l as [|a' l]; [simpl; lia|].
        destruct (IH a' ltac:(left)) as [_ H0]. lia.
      - destruct (IH b Hb). lia. }
    intros b. destruct (Hsum declared_order b (in_declared_order b)). unfold k. lia. }
  assert (Hk : 0 <= k).
  { pose proof (Hlt B_1). pose proof (Z.log2_nonneg (code cwiid B_1)).
    unfold bit in *. lia. }
  exists (2 ^ k). split.
  - apply Z.pow_nonzero; lia.
  - rewrite buttons_line_shown by assumption.
    rewrite (List.filter_ext _ (fun _ => false)).
    + reflexivity.
    + intros b. unfold pressed. rewrite Z.pow2_bits_eqb by assumption.
      apply Z.eqb_neq. pose proof (Hlt b). lia.
Qed.

(** C1, as stated, fails: the bitmask 32 is not 0, none of its bits is a
    button, and the line reads "None". *)
Lemma buttons_line_none_for_unknown_bit :
  ~ (wii_remote_reader.buttons_line libcwiid 32 = "Buttons: None" <-> 32 = 0).
Proof.
  intros [H _]. assert (H32 : 32 = 0) by (apply H; reflexivity). discriminate H32.
Qed.

(** ** The accelerometer line *)

Lemma fmt_3d_right_aligned (n : Z) : right_aligned 3 n (Py.fmt_3d n).
Proof.
  exists (3 - String.length (Py.str n))%nat, (Py.str n).
  split; [reflexivity|]. split; [apply int_str | apply fmt_3d_length].
Qed.

(** C7: for every accelerometer triple, [format_accelerometer] emits
    "X: ", ", Y: " and ", Z: " each followed by the reading as a signed
    decimal integer right-aligned in a field of three columns; readings
    from -99 to 999 give a line of constant length, and (512, 512, 512)
    formats exactly as "X: 512, Y: 512, Z: 512". *)
Theorem format_accelerometer_fields (x y z : Z) :
  (exists fx fy fz,
      wii_remote_reader.format_accelerometer (x, y, z)
      = "X: " +:+ fx +:+ ", Y: " +:+ fy +:+ ", Z: " +:+ fz
      /\ right_aligned 3 x fx /\ right_aligned 3 y fy /\ right_aligned 3 z fz)
  /\ (three_columns x && three_columns y && three_columns z = true ->
      String.length (wii_remote_reader.format_accelerometer (x, y, z)) = 22%nat)
  /\ wii_remote_reader.format_accelerometer (512, 512, 512)
     = "X: 512, Y: 512, Z: 512".
Proof.
  split; [|split].
  - exists (Py.fmt_3d x), (Py.fmt_3d y), (Py.fmt_3d z).
    split; [reflexivity|]. auto using fmt_3d_right_aligned.
  - intros H. apply andb_true_iff in H as [H Hz]. apply andb_true_iff in H as [Hx Hy].
    unfold wii_remote_reader.format_accelerometer.
    rewrite !string_length_app, !three_columns_width by assumption. reflexivity.
  - reflexivity.
Qed.

Lemma format_accelerometer_fields_witness :
  String.length (wii_remote_reader.format_accelerometer (-99, 0, 999)) = 22%nat.
Proof.
  apply (proj1 (proj2 (format_accelerometer_fields (-99) 0 999))). reflexivity.
Defined.

(** ** The IR line *)

Lemma slots_from_cons (k : nat) (o : option (Z * Z * Z)) (ir : list (option (Z * Z * Z))) :
  slots_from k (o :: ir)
  = match o with Some s => [(k, s)] | None => [] end ++ slots_from (S k) ir.
Proof. unfold slots_from. simpl. now destruct o. Qed.

Lemma format_ir_loop_slots (ir : list (option (Z * Z * Z))) :
  forall (ir_data : list string) (k : nat),
    wii_remote_reader.format_ir_loop ir_data (Z.of_nat k) ir
    = ir_data ++ map (fun p => render_slot p.1 p.2) (slots_from k ir).
Proof.
  induction ir as [|o ir IH]; intros ir_data k; simpl.
  - now rewrite app_nil_r.
  - rewrite slots_from_cons.
    replace (Z.of_nat k + 1) with (Z.of_nat (S k)) by lia.
    rewrite IH. destruct o as [[[x y] size]|]; simpl.
    + now rewrite <- app_assoc.
    + reflexivity.
Qed.

Lemma slots_from_lookup (ir : list (option (Z * Z * Z))) :
  forall (k i : nat) (source : Z * Z * Z),
    (i, source) ∈ slots_from k ir
    <-> (k <= i)%nat /\ ir !! (i - k)%nat = Some (Some source).
Proof.
  induction ir as [|o ir IH]; intros k i source.
  - unfold slots_from. simpl. rewrite elem_of_nil, lookup_nil. split; [tauto | intros [_ H]; discriminate].
  - rewrite slots_from_cons, elem_of_app, IH.
    destruct (decide (i = k)) as [-> | Hne].
    + replace (k - k)%nat with 0%nat by lia. simpl.
      split.
      * intros [H | [H _]]; [|lia]. split; [lia|].
        destruct o as [s|]; [|now apply elem_of_nil in H].
        apply list_elem_of_singleton in H. now injection H as ->.
      * intros [_ H]. left. injection H as ->. now apply list_elem_of_singleton.
    + split.
      * intros [H | [Hle H]].
        -- destruct o as [s|]; [|now apply elem_of_nil in H].
           apply list_elem_of_singleton in H. injection H as H _. contradiction.
        -- split; [lia|]. replace (i - k)%nat with (S (i - S k)) by lia. exact H.
      * intros [Hle H]. right. split; [lia|].
        replace (i - k)%nat with (S (i - S k)) in H by lia. exact H.
Qed.

Lemma slots_from_nil (ir : list (option (Z * Z * Z))) (k : nat) :
  slots_from k ir = [] <-> forallb absent ir = true.
Proof.
  revert k. induction ir as [|o ir IH]; intros k.
  - unfold slots_from. simpl. tauto.
  - rewrite slots_from_cons. simpl. destruct o as [s|]; simpl.
    + split; discriminate.
    + apply IH.
Qed.

(** A joined list of rendered slots never reads as the sentinel. *)
Lemma slots_not_sentinel (p : nat * (Z * Z * Z)) (rest : list (nat * (Z * Z * Z))) :
  Py.join " | " (map (fun p => render_slot p.1 p.2) (p :: rest))
  <> "No IR sources detected".
Proof.
  destruct p as [i [[x y] size]], rest as [|q rest]; simpl; intros H; discriminate H.
Qed.

(** C5: for every sequence of IR slots (of length 0 to 4 or longer),
    [format_ir] renders exactly the present slots, in index order, each
    as "Source{index+1}: (x, y) size:{size}" with the numbers in fields
    of width 3, joined with " | "; it renders "No IR sources detected"
    if and only if all slots are absent. *)
Theorem format_ir_present_slots (ir : list (option (Z * Z * Z))) :
  let present := present_slots ir in
  wii_remote_reader.format_ir ir
  = match present with
    | [] => "No IR sources detected"
    | _ => Py.join " | " (map (fun p => render_slot p.1 p.2) present)
    end
  /\ (forall i source, (i, source) ∈ present <-> ir !! i = Some (Some source))
  /\ (wii_remote_reader.format_ir ir = "No IR sources detected"
      <-> forallb absent ir = true).
Proof.
  intros present.
  assert (Hfmt : wii_remote_reader.format_ir ir
                 = match present with
                   | [] => "No IR sources detected"
                   | _ => Py.join " | " (map (fun p => render_slot p.1 p.2) present)
                   end).
  { unfold wii_remote_reader.format_ir, present, present_slots.
    destruct ir as [|o ir]; [reflexivity|].
    change 0 with (Z.of_nat 0). rewrite format_ir_loop_slots, app_nil_l.
    now destruct (slots_from 0 (o :: ir)). }
  split; [exact Hfmt | split].
  - intros i source. unfold present, present_slots.
    rewrite slots_from_lookup. replace (i - 0)%nat with i by lia.
    split; [tauto | split; [lia | assumption]].
  - rewrite Hfmt, <- (slots_from_nil ir 0). fold (present_slots ir). fold present.
    destruct present as [|p rest]; [tauto|].
    split; [intros H; now apply slots_not_sentinel in H | discriminate].
Qed.

(** ** The battery level *)

(** C9: when the reader holds no handle (its [wiimote] field is [None]),
    [get_battery_level] returns the integer 0. *)
Theorem get_battery_level_no_handle (self : wii_remote_reader.WiiRemoteReader)
    (Hnone : wii_remote_reader.wiimote self = None) :
  wii_remote_reader.get_battery_level self = Py.Int 0.
Proof. unfold wii_remote_reader.get_battery_level. now rewrite Hnone. Qed.

Lemma get_battery_level_no_handle_witness :
  wii_remote_reader.get_battery_level wii_remote_reader.__init__ = Py.Int 0.
Proof. apply get_battery_level_no_handle. reflexivity. Defined.

(** The reader holds no handle before connecting and after a connection
    attempt that raised. *)
Lemma no_handle_after_failed_connect (cwiid : cwiid_consts) (e : Py.exn) :
  wii_remote_reader.wiimote wii_remote_reader.__init__ = None
  /\ wii_remote_reader.wiimote
       (wii_remote_reader.connect cwiid wii_remote_reader.__init__ (PairingRaises e)).1.2
     = None.
Proof. split; [reflexivity | now destruct e]. Qed.

(** With a handle the level is the stored battery reading times 100. *)
Lemma get_battery_level_handle (self : wii_remote_reader.WiiRemoteReader) (w : Wiimote) :
  wii_remote_reader.wiimote self = Some w ->
  wii_remote_reader.get_battery_level self = Py.mul100 (battery (state w)).
Proof. intros H. unfold wii_remote_reader.get_battery_level. now rewrite H. Qed.

(** ** A failed connection *)

(** C3, as amended: when [cwiid.Wiimote()] raises the driver's
    [RuntimeError], both scripts catch it, print a guidance message and
    return normally (exit status 0) without entering the poll loop:
    what they print does not depend on the device events. *)
Theorem failed_connect_prints_guidance (cwiid : cwiid_consts) (msg : string)
    (events : list poll_event) :
  simple_wii_example.main cwiid (PairingRaises (Py.RuntimeError msg)) events
  = ([Print "Simple Wii Remote Example";
      Print "Press 1+2 on your Wii remote to connect...";
      Print "Failed to connect. Make sure your Wii remote is in discoverable mode."],
     Exit0)
  /\ wii_remote_reader.main cwiid (PairingRaises (Py.RuntimeError msg)) events
     = ([Print "Wii Remote Input Reader";
         Print "Make sure your Wii remote is in discoverable mode";
         Print "(Press and hold the 1 and 2 buttons simultaneously)";
         Print "Press 1+2 on your Wii remote to connect...";
         Print ("Failed to connect: " +:+ msg);
         Print "Make sure your Wii remote is in discoverable mode (press 1+2)";
         Print "Could not connect to Wii remote"],
        Exit0).
Proof. split; reflexivity. Qed.

(** C3, as stated, fails: the simple script does not end with an
    uncaught error when the connection fails. *)
Lemma simple_connect_failure_is_caught :
  ~ (exists e,
        (simple_wii_example.main libcwiid
           (PairingRaises (Py.RuntimeError "Error opening wiimote connection"))
           []).2 = Traceback e).
Proof. intros [e H]. discriminate H. Qed.

(** C10: in the simple script, when [cwiid.Wiimote()] raises, no handle
    was bound, the [finally] block skips [close()], and the script ends
    as its [except] clauses decide, with no error from the cleanup; the
    block calls [close()] exactly when the name [wiimote] is bound. *)
Theorem simple_finally_skips_close (cwiid : cwiid_consts) (e : Py.exn)
    (events : list poll_event) :
  closes (simple_wii_example.main cwiid (PairingRaises e) events).1 = 0%nat
  /\ (simple_wii_example.main cwiid (PairingRaises e) events).2
     = match e with
       | Py.OtherError _ => Traceback e
       | _ => Exit0
       end
  /\ (simple_wii_example.try_body cwiid (PairingRaises e) events).1.2 !! "wiimote" = None
  /\ (forall locals,
         simple_wii_example.finally locals
         = if bool_decide (is_Some (locals !! "wiimote")) then [Dev Close] else []).
Proof.
  split; [|split; [|split]].
  - now destruct e.
  - now destruct e.
  - reflexivity.
  - reflexivity.
Qed.

(** ** The poll loops *)

Lemma closes_app (t t' : trace) : closes (t ++ t') = (closes t + closes t')%nat.
Proof. unfold closes. now rewrite List.filter_app, length_app. Qed.

Lemma closes_print_if (cond : bool) (s : string) :
  closes (simple_wii_example.print_if cond s) = 0%nat.
Proof. now destruct cond. Qed.

Lemma closes_report (cwiid : cwiid_consts) (buttons : Z) :
  closes (simple_wii_example.report cwiid buttons) = 0%nat.
Proof.
  unfold simple_wii_example.report. now rewrite !closes_app, !closes_print_if.
Qed.

Lemma closes_frame (cwiid : cwiid_consts) (self : wii_remote_reader.WiiRemoteReader)
    (w : Wiimote) :
  closes (wii_remote_reader.frame cwiid self w) = 0%nat.
Proof. reflexivity. Qed.

(** The loop of the reader touches no handle, keeps the one it has, and
    returns exactly when an interrupt or a failed read ends it. *)
Lemma poll_spec (cwiid : cwiid_consts) (events : list poll_event) :
  forall self,
    wii_remote_reader.running self = true ->
    wii_remote_reader.connected self = true ->
    is_Some (wii_remote_reader.wiimote self) ->
    closes (wii_remote_reader.poll cwiid self events).1.1 = 0%nat
    /\ is_Some (wii_remote_reader.wiimote (wii_remote_reader.poll cwiid self events).1.2)
    /\ (wii_remote_reader.poll cwiid self events).2
       = if existsb (ends_loop cwiid Reader) events then Ret tt else Pending.
Proof.
  induction events as [|ev events IH]; intros self Hrun Hcon [w Hw]; simpl;
    rewrite Hrun, Hcon; simpl.
  - rewrite Hw. eauto.
  - destruct ev as [s | s | e]; simpl.
    + rewrite Hw. simpl.
      specialize (IH (wii_remote_reader.refresh self s)).
      unfold wii_remote_reader.refresh in IH at 1 2 3. simpl in IH.
      rewrite Hw in IH. simpl in IH.
      destruct (IH Hrun Hcon (ex_intro _ _ eq_refl)) as (Hc & Hs & Hr).
      destruct (wii_remote_reader.poll cwiid (wii_remote_reader.refresh self s) events)
        as [[t self'] r] eqn:Hp.
      simpl in *. split; [exact Hc | split; assumption].
    + rewrite Hw. simpl. split; [reflexivity | split; [|reflexivity]].
      rewrite Hw. simpl. eauto.
    + destruct e; simpl; rewrite Hw; eauto.
Qed.

(** The loop of the simple script touches no handle, keeps the binding
    of [wiimote], and ends exactly on HOME, an interrupt or a failed
    read. *)
Lemma loop_spec (cwiid : cwiid_consts) (events : list poll_event) :
  forall locals,
    closes (simple_wii_example.loop cwiid locals events).1.1 = 0%nat
    /\ (simple_wii_example.loop cwiid locals events).1.2 !! "wiimote"
       = locals !! "wiimote"
    /\ ((simple_wii_example.loop cwiid locals events).2 = Pending
        <-> existsb (ends_loop cwiid Simple) events = false).
Proof.
  induction events as [|ev events IH]; intros locals; simpl.
  - tauto.
  - destruct ev as [s | s | e]; simpl.
    + fold (home_pressed cwiid s). destruct (home_pressed cwiid s) eqn:Hh; simpl.
      * rewrite ?closes_app, ?closes_report.
        split; [reflexivity | split; [now rewrite lookup_insert_ne | split; discriminate]].
      * specialize (IH (<["buttons" := simple_wii_example.VInt (buttons s)]> locals)).
        destruct (simple_wii_example.loop cwiid
                    (<["buttons" := simple_wii_example.VInt (buttons s)]> locals) events)
          as [[t locals'] r].
        simpl in *. destruct IH as (Hc & Hl & Hr).
        split; [rewrite ?closes_app, ?closes_report; exact Hc | split; [|exact Hr]].
        rewrite Hl. now rewrite lookup_insert_ne.
    + fold (home_pressed cwiid s). destruct (home_pressed cwiid s) eqn:Hh; simpl;
        rewrite ?closes_app, ?closes_report;
        (split; [reflexivity | split; [now rewrite lookup_insert_ne | split; discriminate]]).
    + split; [reflexivity | split; [reflexivity | split; discriminate]].
Qed.

(** With a paired handle the reader ends exactly when an event ends its
    loop, and then it has closed the handle once. *)
Lemma reader_run (cwiid : cwiid_consts) (w : Wiimote) (events : list poll_event) :
  (wii_remote_reader.main cwiid (Paired w) events).2
  = (if existsb (ends_loop cwiid Reader) events then Exit0 else StillPolling)
  /\ closes (wii_remote_reader.main cwiid (Paired w) events).1
     = if existsb (ends_loop cwiid Reader) events then 1%nat else 0%nat.
Proof.
  unfold wii_remote_reader.main, wii_remote_reader.start, wii_remote_reader.read_inputs.
  simpl wii_remote_reader.connect. cbv iota beta.
  cbn [wii_remote_reader.wiimote wii_remote_reader.connected wii_remote_reader.running].
  set (self := {| wii_remote_reader.wiimote := Some w;
                  wii_remote_reader.connected := true;
                  wii_remote_reader.running := true |}).
  destruct (poll_spec cwiid events self eq_refl eq_refl (ex_intro _ w eq_refl))
    as (Hc & [w' Hs] & Hr).
  destruct (wii_remote_reader.poll cwiid self events) as [[t self'] r].
  simpl in Hc, Hs, Hr. subst r.
  destruct (existsb (ends_loop cwiid Reader) events).
  - unfold wii_remote_reader.disconnect. rewrite Hs. simpl. split; [reflexivity|].
    unfold closes in *. simpl. rewrite List.filter_app, length_app, Hc. reflexivity.
  - simpl. split; [reflexivity | exact Hc].
Qed.

(** With a paired handle the simple script ends exactly when an event
    ends its loop, and then it has closed the handle once. *)
Lemma simple_run (cwiid : cwiid_consts) (w : Wiimote) (events : list poll_event) :
  terminated (simple_wii_example.main cwiid (Paired w) events).2
  = existsb (ends_loop cwiid Simple) events
  /\ closes (simple_wii_example.main cwiid (Paired w) events).1
     = if existsb (ends_loop cwiid Simple) events then 1%nat else 0%nat.
Proof.
  unfold simple_wii_example.main, simple_wii_example.try_body.
  destruct (loop_spec cwiid events {["wiimote" := simple_wii_example.VWiimote w]})
    as (Hc & Hl & Hr).
  destruct (simple_wii_example.loop cwiid
              {["wiimote" := simple_wii_example.VWiimote w]} events)
    as [[t locals] r].
  simpl in Hc, Hl, Hr. rewrite lookup_singleton_eq in Hl.
  assert (Hfin : simple_wii_example.finally locals = [Dev Close]).
  { unfold simple_wii_example.finally. rewrite Hl. reflexivity. }
  destruct (existsb (ends_loop cwiid Simple) events).
  - assert (Hne : r <> Pending) by (intros H; apply Hr in H; discriminate).
    destruct r as [[] | e |]; [| |contradiction].
    + simpl. rewrite Hfin. split; [reflexivity|].
      unfold closes in *. simpl. rewrite List.filter_app, length_app, Hc. reflexivity.
    + destruct e; simpl; rewrite Hfin; (split; [reflexivity|]);
        unfold closes in *; simpl; rewrite List.filter_app, length_app, Hc; reflexivity.
  - assert (Hp : r = Pending) by now apply Hr.
    subst r. simpl. split; [reflexivity | exact Hc].
Qed.

(** C4: with a paired handle, each script ends exactly when an event
    ends its poll loop (a sentinel press in the simple script, an
    interrupt or a failed read in both), and whenever it ends it has
    called [close()] on the handle exactly once; while the loop is
    polling the handle has not been closed. *)
Theorem handle_released_exactly_once (v : variant) (cwiid : cwiid_consts)
    (w : Wiimote) (events : list poll_event) :
  (terminated (run v cwiid (Paired w) events).2 = true
   <-> existsb (ends_loop cwiid v) events = true)
  /\ (terminated (run v cwiid (Paired w) events).2 = true ->
      closes (run v cwiid (Paired w) events).1 = 1%nat)
  /\ (terminated (run v cwiid (Paired w) events).2 = false ->
      closes (run v cwiid (Paired w) events).1 = 0%nat).
Proof.
  assert (H : terminated (run v cwiid (Paired w) events).2
              = existsb (ends_loop cwiid v) events
              /\ closes (run v cwiid (Paired w) events).1
                 = if existsb (ends_loop cwiid v) events then 1%nat else 0%nat).
  { destruct v; simpl.
    - destruct (reader_run cwiid w events) as [Ho Hc]. rewrite Ho, Hc.
      now destruct (existsb (ends_loop cwiid Reader) events).
    - apply simple_run. }
  destruct H as [Ho Hc]. rewrite Ho, Hc.
  destruct (existsb (ends_loop cwiid v) events); repeat split; congruence.
Qed.

Lemma handle_released_exactly_once_witness :
  closes (run Reader libcwiid (Paired {| state := snapshot 0 |})
            [Sample (snapshot 8); Fault Py.KeyboardInterrupt]).1 = 1%nat
  /\ closes (run Reader libcwiid (Paired {| state := snapshot 0 |})
               [Sample (snapshot 8); Fault (Py.OtherError "read failed")]).1 = 1%nat
  /\ closes (run Simple libcwiid (Paired {| state := snapshot 0 |})
               [Sample (snapshot 8); Sample (snapshot 0x80)]).1 = 1%nat
  /\ closes (run Simple libcwiid (Paired {| state := snapshot 0 |})
               [Sample (snapshot 8); Fault (Py.OtherError "read failed")]).1 = 1%nat.
Proof.
  split; [|split; [|split]].
  - apply (proj1 (proj2 (handle_released_exactly_once Reader libcwiid
             {| state := snapshot 0 |}
             [Sample (snapshot 8); Fault Py.KeyboardInterrupt]))). reflexivity.
  - apply (proj1 (proj2 (handle_released_exactly_once Reader libcwiid
             {| state := snapshot 0 |}
             [Sample (snapshot 8); Fault (Py.OtherError "read failed")]))). reflexivity.
  - apply (proj1 (proj2 (handle_released_exactly_once Simple libcwiid
             {| state := snapshot 0 |}
             [Sample (snapshot 8); Sample (snapshot 0x80)]))). reflexivity.
  - apply (proj1 (proj2 (handle_released_exactly_once Simple libcwiid
             {| state := snapshot 0 |}
             [Sample (snapshot 8); Fault (Py.OtherError "read failed")]))). reflexivity.
Defined.

(** ** The sentinel button *)

Lemma bit_eqb (cwiid : cwiid_consts) (b b' : Button) :
  button_bits cwiid = true ->
  (bit cwiid b' =? bit cwiid b) = bool_decide (b = b').
Proof.
  intros Hbits. destruct (decide (b = b')) as [-> | Hne].
  - rewrite Z.eqb_refl. symmetry. now apply bool_decide_eq_true.
  - rewrite (bool_decide_eq_false_2 _ Hne). apply Z.eqb_neq. intros Heq.
    apply Hne, (code_inj cwiid); [now apply button_bits_distinct|].
    destruct (single_bit_pow2 _ (button_bits_single cwiid b Hbits)) as [_ ->].
    destruct (single_bit_pow2 _ (button_bits_single cwiid b' Hbits)) as [_ ->].
    unfold bit in Heq. now rewrite Heq.
Qed.

(** In a bitmask made of two button codes exactly those two buttons are
    pressed. *)
Lemma pressed_lor (cwiid : cwiid_consts) (b1 b2 b : Button) :
  button_bits cwiid = true ->
  pressed cwiid (Z.lor (code cwiid b1) (code cwiid b2)) b
  = bool_decide (b = b1) || bool_decide (b = b2).
Proof.
  intros Hbits. unfold pressed. rewrite Z.lor_spec.
  destruct (single_bit_pow2 _ (button_bits_single cwiid b1 Hbits)) as [H1 E1].
  destruct (single_bit_pow2 _ (button_bits_single cwiid b2 Hbits)) as [H2 E2].
  rewrite E1 at 1. rewrite E2 at 1.
  rewrite !Z.pow2_bits_eqb by assumption.
  fold (bit cwiid b1). fold (bit cwiid b2).
  now rewrite !bit_eqb by assumption.
Qed.

Lemma buttons_line_A_HOME (cwiid : cwiid_consts) :
  button_bits cwiid = true ->
  wii_remote_reader.buttons_line cwiid (Z.lor (BTN_A cwiid) (BTN_HOME cwiid))
  = "Buttons: A, HOME".
Proof.
  intros Hbits. rewrite buttons_line_shown by assumption.
  change (BTN_A cwiid) with (code cwiid B_A).
  change (BTN_HOME cwiid) with (code cwiid B_HOME).
  rewrite (List.filter_ext _ (fun b => bool_decide (b = B_A) || bool_decide (b = B_HOME)))
    by (intros b; now apply pressed_lor).
  reflexivity.
Qed.

(** Up to the first snapshot with HOME pressed the loop of the simple
    script runs; there it reports the buttons and breaks. *)
Lemma loop_home (cwiid : cwiid_consts) (s : State) (rest : list poll_event)
    (before : list poll_event) :
  forallb (passes cwiid) before = true ->
  home_pressed cwiid s = true ->
  forall locals,
    exists t locals',
      simple_wii_example.loop cwiid locals (before ++ Sample s :: rest)
      = (t ++ simple_wii_example.report cwiid (buttons s)
           ++ [Print "HOME button pressed!"],
         locals', Ret tt).
Proof.
  intros Hbefore Hhome. induction before as [|ev before IH]; intros locals.
  - exists [], (<["buttons" := simple_wii_example.VInt (buttons s)]> locals).
    cbn [app simple_wii_example.loop]. fold (home_pressed cwiid s). now rewrite Hhome.
  - simpl in Hbefore. apply andb_true_iff in Hbefore as [Hev Hbefore].
    destruct ev as [s' | s' | e]; simpl in Hev; try discriminate.
    apply negb_true_iff in Hev.
    cbn [app simple_wii_example.loop]. fold (home_pressed cwiid s'). rewrite Hev.
    destruct (IH Hbefore (<["buttons" := simple_wii_example.VInt (buttons s')]> locals))
      as (t & locals' & ->).
    exists (simple_wii_example.report cwiid (buttons s') ++ [Sleep 100] ++ t), locals'.
    now rewrite <- !app_assoc.
Qed.

Lemma loop_ignores_rest (cwiid : cwiid_consts) (s : State) (rest : list poll_event)
    (before : list poll_event) :
  home_pressed cwiid s = true ->
  forall locals,
    simple_wii_example.loop cwiid locals (before ++ Sample s :: rest)
    = simple_wii_example.loop cwiid locals (before ++ [Sample s]).
Proof.
  intros Hhome. induction before as [|ev before IH]; intros locals; simpl.
  - fold (home_pressed cwiid s). now rewrite Hhome.
  - destruct ev as [s' | s' | e]; try reflexivity.
    destruct (truthy (Z.land (buttons s') (BTN_HOME cwiid))); [reflexivity|].
    now rewrite IH.
Qed.

(** Every snapshot the reader polls is formatted, whatever its buttons. *)
Lemma poll_prints_buttons (cwiid : cwiid_consts) (s : State) (rest : list poll_event)
    (before : list poll_event) :
  forallb (passes cwiid) before = true ->
  forall self,
    wii_remote_reader.running self = true ->
    wii_remote_reader.connected self = true ->
    is_Some (wii_remote_reader.wiimote self) ->
    In (Print (wii_remote_reader.buttons_line cwiid (buttons s)))
       (wii_remote_reader.poll cwiid self (before ++ Sample s :: rest)).1.1.
Proof.
  intros Hbefore. induction before as [|ev before IH]; intros self Hrun Hcon [w Hw].
  - simpl. rewrite Hrun, Hcon, Hw. simpl.
    destruct (wii_remote_reader.poll cwiid (wii_remote_reader.refresh self s) rest)
      as [[t self'] r].
    simpl. tauto.
  - simpl in Hbefore. apply andb_true_iff in Hbefore as [Hev Hbefore].
    destruct ev as [s' | s' | e]; simpl in Hev; try discriminate.
    simpl. rewrite Hrun, Hcon, Hw. simpl.
    specialize (IH Hbefore (wii_remote_reader.refresh self s') Hrun Hcon).
    destruct (wii_remote_reader.poll cwiid (wii_remote_reader.refresh self s')
                (before ++ Sample s :: rest)) as [[t self'] r].
    simpl in *. do 10 right. apply IH.
    unfold wii_remote_reader.refresh. simpl. rewrite Hw. simpl. eauto.
Qed.

Lemma passes_do_not_end (cwiid : cwiid_consts) (before : list poll_event) :
  forallb (passes cwiid) before = true ->
  existsb (ends_loop cwiid Reader) before = false.
Proof.
  induction before as [|ev before IH]; simpl; [reflexivity|].
  intros H. apply andb_true_iff in H as [Hev H].
  destruct ev; simpl in *; try discriminate. now apply IH.
Qed.

Lemma report_A (cwiid : cwiid_consts) (B : Z) :
  truthy (Z.land B (BTN_A cwiid)) = true ->
  In (Print "A button pressed!") (simple_wii_example.report cwiid B).
Proof.
  intros H. unfold simple_wii_example.report. rewrite H. simpl. tauto.
Qed.

Lemma A_pressed_in_A_HOME (cwiid : cwiid_consts) :
  button_bits cwiid = true ->
  truthy (Z.land (Z.lor (BTN_A cwiid) (BTN_HOME cwiid)) (BTN_A cwiid)) = true.
Proof.
  intros Hbits.
  change (BTN_A cwiid) with (code cwiid B_A).
  change (BTN_HOME cwiid) with (code cwiid B_HOME).
  rewrite truthy_land_single_bit by now apply button_bits_single.
  fold (bit cwiid B_A).
  fold (pressed cwiid (Z.lor (code cwiid B_A) (code cwiid B_HOME)) B_A).
  now rewrite pressed_lor.
Qed.

(** C2, as amended: with a paired handle, a snapshot with the HOME bit
    set, reached after snapshots without it, makes the loop of the
    simple script print, break and close the handle, the script
    returning with exit status 0 whatever would follow.  The reader
    script formats the snapshot and keeps polling: whether it ends
    depends only on a later interrupt or failed read.  For the buttons
    {A, HOME} the reader prints "Buttons: A, HOME" and the simple script
    prints "A button pressed!" before "HOME button pressed!". *)
Theorem home_ends_simple_loop_only (cwiid : cwiid_consts) (w : Wiimote)
    (before : list poll_event) (s : State) (rest : list poll_event)
    (Hbits : button_bits cwiid = true)
    (Hbefore : forallb (passes cwiid) before = true)
    (Hhome : home_pressed cwiid s = true) :
  let events := before ++ Sample s :: rest in
  (exists t,
      simple_wii_example.main cwiid (Paired w) events
      = (t ++ simple_wii_example.report cwiid (buttons s)
           ++ [Print "HOME button pressed!"; Dev Close], Exit0)
      /\ closes t = 0%nat)
  /\ simple_wii_example.main cwiid (Paired w) events
     = simple_wii_example.main cwiid (Paired w) (before ++ [Sample s])
  /\ In (Print (wii_remote_reader.buttons_line cwiid (buttons s)))
        (wii_remote_reader.main cwiid (Paired w) events).1
  /\ (wii_remote_reader.main cwiid (Paired w) events).2
     = (if existsb (ends_loop cwiid Reader) rest then Exit0 else StillPolling)
  /\ (buttons s = Z.lor (BTN_A cwiid) (BTN_HOME cwiid) ->
      wii_remote_reader.buttons_line cwiid (buttons s) = "Buttons: A, HOME"
      /\ In (Print "A button pressed!") (simple_wii_example.report cwiid (buttons s))).
Proof.
  intros events. split; [|split; [|split; [|split]]].
  - destruct (loop_home cwiid s rest before Hbefore Hhome
                {["wiimote" := simple_wii_example.VWiimote w]}) as (t & locals' & Hloop).
    pose proof (loop_spec cwiid events {["wiimote" := simple_wii_example.VWiimote w]})
      as (Hc & Hl & _).
    unfold simple_wii_example.main, simple_wii_example.try_body.
    fold events in Hloop. rewrite Hloop in Hc, Hl |- *.
    cbn [fst snd] in Hc, Hl. rewrite lookup_singleton_eq in Hl.
    unfold simple_wii_example.finally. rewrite Hl.
    match goal with
    | |- exists _, (let '(_, _) := _ in (?a ++ (?b ++ t ++ _) ++ _, _)) = _ /\ _ =>
        exists (a ++ b ++ t)
    end.
    split.
    + cbn [simple_wii_example.handlers outcome_of]. simpl bool_decide. cbv iota.
      f_equal. rewrite app_nil_l.
      rewrite <- (app_assoc _ _ [Dev Close]), <- (app_assoc t _ [Dev Close]).
      rewrite <- (app_assoc _ [Print "HOME button pressed!"] [Dev Close]).
      rewrite <- (app_assoc _ (_ ++ t) _), <- (app_assoc _ t _). reflexivity.
    + rewrite !closes_app in Hc. rewrite !closes_app. unfold closes at 1 2. simpl. lia.
  - unfold events, simple_wii_example.main, simple_wii_example.try_body.
    now rewrite loop_ignores_rest.
  - unfold wii_remote_reader.main, wii_remote_reader.start, wii_remote_reader.read_inputs.
    simpl wii_remote_reader.connect. cbv iota beta.
    cbn [wii_remote_reader.wiimote wii_remote_reader.connected wii_remote_reader.running].
    set (self := {| wii_remote_reader.wiimote := Some w;
                    wii_remote_reader.connected := true;
                    wii_remote_reader.running := true |}).
    pose proof (poll_prints_buttons cwiid s rest before Hbefore self
                  eq_refl eq_refl (ex_intro _ w eq_refl)) as Hin.
    fold events in Hin.
    destruct (wii_remote_reader.poll cwiid self events) as [[t self'] r].
    cbn [fst] in Hin.
    destruct r as [[] | e |].
    + destruct (wii_remote_reader.disconnect self') as [t2 self2].
      cbn [fst]. rewrite !in_app_iff. tauto.
    + destruct (wii_remote_reader.disconnect self') as [t2 self2].
      cbn [fst]. rewrite !in_app_iff. tauto.
    + cbn [fst]. rewrite !in_app_iff. tauto.
  - destruct (reader_run cwiid w events) as [-> _]. unfold events.
    rewrite existsb_app, (passes_do_not_end cwiid before Hbefore). reflexivity.
  - intros ->. split.
    + now apply buttons_line_A_HOME.
    + now apply report_A, A_pressed_in_A_HOME.
Qed.

Lemma home_ends_simple_loop_only_witness :
  (simple_wii_example.main libcwiid (Paired {| state := snapshot 0 |})
     ([Sample (snapshot 8)] ++ Sample (snapshot 0x88) :: [Sample (snapshot 0)])).2 = Exit0
  /\ (wii_remote_reader.main libcwiid (Paired {| state := snapshot 0 |})
        ([Sample (snapshot 8)] ++ Sample (snapshot 0x88) :: [Sample (snapshot 0)])).2
     = StillPolling
  /\ wii_remote_reader.buttons_line libcwiid (buttons (snapshot 0x88)) = "Buttons: A, HOME".
Proof.
  pose proof (home_ends_simple_loop_only libcwiid {| state := snapshot 0 |}
                [Sample (snapshot 8)] (snapshot 0x88) [Sample (snapshot 0)]
                eq_refl eq_refl eq_refl) as (Hsimple & _ & _ & Hreader & Hline).
  split; [|split].
  - destruct Hsimple as (t & -> & _). reflexivity.
  - exact Hreader.
  - exact (proj1 (Hline eq_refl)).
Defined.

(** C2, as stated, fails for the reader script: a snapshot with A and
    HOME pressed is formatted and the loop keeps polling. *)
Lemma reader_keeps_polling_on_home :
  ~ (home_pressed libcwiid (snapshot 0x88) = true ->
     terminated (wii_remote_reader.main libcwiid (Paired {| state := snapshot 0 |})
                   [Sample (snapshot 0x88)]).2 = true).
Proof. intros H. specialize (H eq_refl). discriminate H. Qed.

(** ** The battery line *)

(** The frame of the reader hands the battery reading times 100 to the
    one-decimal conversion of the runtime. *)
Lemma frame_battery_line (cwiid : cwiid_consts)
    (self : wii_remote_reader.WiiRemoteReader) (w : Wiimote) :
  wii_remote_reader.wiimote self = Some w ->
  In (PrintFixed1 "Battery: " (Py.mul100 (battery (state w))) "%")
     (wii_remote_reader.frame cwiid self w).
Proof.
  intros H. unfold wii_remote_reader.frame.
  rewrite (get_battery_level_handle self w H). simpl. tauto.
Qed.

(** * Further properties of the two scripts *)

(** ** Measuring traces *)

Lemma dev_ops_app (t t' : trace) : dev_ops (t ++ t') = dev_ops t ++ dev_ops t'.
Proof. unfold dev_ops. apply omap_app. Qed.

Lemma slept_app (t t' : trace) : slept (t ++ t') = slept t + slept t'.
Proof.
  unfold slept. induction t as [|e t IH]; simpl; [reflexivity|].
  rewrite IH. destruct e; lia.
Qed.

Lemma report_quiet (cwiid : cwiid_consts) (B : Z) :
  dev_ops (simple_wii_example.report cwiid B) = []
  /\ slept (simple_wii_example.report cwiid B) = 0.
Proof.
  unfold simple_wii_example.report, simple_wii_example.print_if.
  now destruct (truthy (Z.land B (BTN_A cwiid))), (truthy (Z.land B (BTN_B cwiid))),
    (truthy (Z.land B (BTN_1 cwiid))), (truthy (Z.land B (BTN_2 cwiid))).
Qed.

Lemma frame_quiet (cwiid : cwiid_consts) (self : wii_remote_reader.WiiRemoteReader)
    (w : Wiimote) :
  dev_ops (wii_remote_reader.frame cwiid self w) = []
  /\ slept (wii_remote_reader.frame cwiid self w) = 0.
Proof. split; reflexivity. Qed.

(** ** The scripts in one piece *)

(** The reader with a paired handle: its prologue, its loop, and, the
    loop over, its epilogue. *)
Lemma reader_main_paired (cwiid : cwiid_consts) (w : Wiimote) (events : list poll_event) :
  wii_remote_reader.main cwiid (Paired w) events
  = (prologue cwiid Reader
       ++ (wii_remote_reader.poll cwiid (polling_reader w) events).1.1
       ++ match (wii_remote_reader.poll cwiid (polling_reader w) events).2 with
          | Pending => []
          | _ => (wii_remote_reader.disconnect
                    (wii_remote_reader.poll cwiid (polling_reader w) events).1.2).1
          end,
     outcome_of (wii_remote_reader.poll cwiid (polling_reader w) events).2).
Proof.
  unfold wii_remote_reader.main, wii_remote_reader.start, wii_remote_reader.read_inputs.
  simpl wii_remote_reader.connect. cbv iota beta.
  cbn [wii_remote_reader.wiimote wii_remote_reader.connected wii_remote_reader.running].
  fold (polling_reader w).
  destruct (wii_remote_reader.poll cwiid (polling_reader w) events) as [[t self'] r].
  cbn [fst snd].
  destruct r as [[] | e |]; [| |simpl; now rewrite app_nil_r];
    destruct (wii_remote_reader.disconnect self') as [t2 self2]; reflexivity.
Qed.

(** The simple script with a paired handle, in the same shape. *)
Lemma simple_main_paired (cwiid : cwiid_consts) (w : Wiimote) (events : list poll_event) :
  simple_wii_example.main cwiid (Paired w) events
  = let l := simple_wii_example.loop cwiid
               {["wiimote" := simple_wii_example.VWiimote w]} events in
    (prologue cwiid Simple ++ l.1.1
       ++ match l.2 with
          | Pending => []
          | r => (simple_wii_example.handlers r).1 ++ [Dev Close]
          end,
     match l.2 with
     | Pending => StillPolling
     | r => outcome_of (simple_wii_example.handlers r).2
     end).
Proof.
  unfold simple_wii_example.main, simple_wii_example.try_body.
  pose proof (loop_spec cwiid events {["wiimote" := simple_wii_example.VWiimote w]})
    as (_ & Hl & _).
  destruct (simple_wii_example.loop cwiid
              {["wiimote" := simple_wii_example.VWiimote w]} events) as [[t locals] r].
  cbn [fst snd] in *. rewrite lookup_singleton_eq in Hl.
  assert (Hfin : simple_wii_example.finally locals = [Dev Close])
    by (unfold simple_wii_example.finally; now rewrite Hl).
  destruct r as [[] | e |].
  - simpl. now rewrite Hfin.
  - destruct (simple_wii_example.handlers (Raise e)) as [t2 r2] eqn:Hh.
    rewrite Hfin. simpl. reflexivity.
  - simpl. now rewrite app_nil_r.
Qed.

(** ** The loops, pass by pass *)

(** The flag [running] the reader is left with when [ev] ends its loop:
    only an interrupt clears it. *)
Lemma poll_run (cwiid : cwiid_consts) (events : list poll_event) :
  forall self,
    wii_remote_reader.running self = true ->
    wii_remote_reader.connected self = true ->
    is_Some (wii_remote_reader.wiimote self) ->
    dev_ops (wii_remote_reader.poll cwiid self events).1.1 = []
    /\ slept (wii_remote_reader.poll cwiid self events).1.1
       = 100 * Z.of_nat (completed_passes cwiid Reader events)
    /\ wii_remote_reader.connected (wii_remote_reader.poll cwiid self events).1.2 = true
    /\ match ending cwiid Reader events with
       | None => (wii_remote_reader.poll cwiid self events).2 = Pending
       | Some ev =>
           (wii_remote_reader.poll cwiid self events).2 = Ret tt
           /\ (exists t, (wii_remote_reader.poll cwiid self events).1.1
                         = t ++ last_words cwiid Reader ev)
           /\ wii_remote_reader.running (wii_remote_reader.poll cwiid self events).1.2
              = match ev with
                | Fault (Py.RuntimeError _) | Fault (Py.OtherError _) => true
                | _ => false
                end
       end.
Proof.
  induction events as [|ev events IH]; intros self Hrun Hcon [w Hw];
    cbn [wii_remote_reader.poll]; rewrite Hrun, Hcon; cbn [andb].
  - simpl. auto.
  - destruct ev as [s | s | e].
    + assert (Hw' : wii_remote_reader.wiimote (wii_remote_reader.refresh self s)
                    = Some {| state := s |})
        by (unfold wii_remote_reader.refresh; simpl; now rewrite Hw).
      rewrite Hw'.
      destruct (IH (wii_remote_reader.refresh self s) Hrun Hcon
                  (ex_intro _ _ Hw')) as (Hd & Hs & Hc & He).
      destruct (wii_remote_reader.poll cwiid (wii_remote_reader.refresh self s) events)
        as [[t self'] r].
      cbn [fst snd] in *. unfold ending in *. cbn [List.find ends_loop completed_passes].
      split; [|split; [|split]].
      * rewrite !dev_ops_app, Hd. reflexivity.
      * rewrite !slept_app, Hs. cbn [slept fold_right].
        change (slept (wii_remote_reader.frame cwiid (wii_remote_reader.refresh self s)
                         {| state := s |})) with 0.
        lia.
      * exact Hc.
      * destruct (List.find (ends_loop cwiid Reader) events) as [ev|]; [|exact He].
        destruct He as (Hr & [t' Ht] & Hrun').
        split; [exact Hr | split; [|exact Hrun']].
        exists (wii_remote_reader.frame cwiid (wii_remote_reader.refresh self s)
                  {| state := s |} ++ [Sleep 100] ++ t').
        rewrite Ht. now rewrite <- !app_assoc.
    + assert (Hw' : wii_remote_reader.wiimote (wii_remote_reader.refresh self s)
                    = Some {| state := s |})
        by (unfold wii_remote_reader.refresh; simpl; now rewrite Hw).
      rewrite Hw'. cbn [fst snd]. unfold ending. cbn [List.find ends_loop completed_passes].
      split; [|split; [|split; [|split; [|split]]]]; try reflexivity.
      * exact Hcon.
      * eexists. reflexivity.
    + unfold ending. cbn [List.find ends_loop completed_passes].
      destruct e; cbn [fst snd];
        (split; [|split; [|split; [|split; [|split]]]]; try reflexivity;
         try exact Hcon; try exact Hrun; try (exists []; reflexivity)).
Qed.

(** The loop of the simple script with its [except] clauses. *)
Lemma loop_run (cwiid : cwiid_consts) (events : list poll_event) :
  forall locals,
    dev_ops (simple_wii_example.loop cwiid locals events).1.1 = []
    /\ slept (simple_wii_example.loop cwiid locals events).1.1
       = 100 * Z.of_nat (completed_passes cwiid Simple events)
    /\ match ending cwiid Simple events with
       | None => (simple_wii_example.loop cwiid locals events).2 = Pending
       | Some ev =>
           (simple_wii_example.loop cwiid locals events).2 <> Pending
           /\ (exists t,
                  (simple_wii_example.loop cwiid locals events).1.1
                  ++ (simple_wii_example.handlers
                        (simple_wii_example.loop cwiid locals events).2).1
                  = t ++ last_words cwiid Simple ev)
           /\ outcome_of (simple_wii_example.handlers
                            (simple_wii_example.loop cwiid locals events).2).2
              = exit_of Simple ev
       end.
Proof.
  induction events as [|ev events IH]; intros locals.
  - simpl. auto.
  - unfold ending in *. cbn [List.find ends_loop completed_passes simple_wii_example.loop].
    destruct (report_quiet cwiid (buttons match ev with
                                          | Sample s | SampleInterrupted s => s
                                          | Fault _ => snapshot 0
                                          end)) as [Hqd Hqs].
    destruct ev as [s | s | e].
    + cbn [List.find ends_loop completed_passes].
      fold (home_pressed cwiid s). destruct (home_pressed cwiid s) eqn:Hh.
      * cbn [fst snd]. rewrite dev_ops_app, slept_app, Hqd, Hqs.
        split; [reflexivity | split; [reflexivity|]].
        split; [discriminate | split; [|reflexivity]].
        eexists. simpl. rewrite app_nil_r. reflexivity.
      * specialize (IH (<["buttons" := simple_wii_example.VInt (buttons s)]> locals)).
        destruct (simple_wii_example.loop cwiid
                    (<["buttons" := simple_wii_example.VInt (buttons s)]> locals) events)
          as [[t locals'] r].
        cbn [fst snd] in *. destruct IH as (Hd & Hs & He).
        rewrite !dev_ops_app, !slept_app, Hqd, Hqs, Hd, Hs.
        split; [reflexivity | split; [cbn [slept fold_right]; lia|]].
        destruct (List.find (ends_loop cwiid Simple) events) as [ev|]; [|exact He].
        destruct He as (Hne & [t' Ht] & Ho).
        split; [exact Hne | split; [|exact Ho]].
        exists (simple_wii_example.report cwiid (buttons s) ++ [Sleep 100] ++ t').
        rewrite <- !app_assoc, <- Ht. reflexivity.
    + cbn [List.find ends_loop completed_passes last_words].
      fold (home_pressed cwiid s).
      destruct (home_pressed cwiid s) eqn:Hh; cbn [fst snd].
      * rewrite dev_ops_app, slept_app, Hqd, Hqs.
        split; [reflexivity | split; [reflexivity|]].
        split; [discriminate | split; [|reflexivity]].
        eexists. simpl. rewrite app_nil_r. reflexivity.
      * rewrite Hqd, Hqs.
        split; [reflexivity | split; [reflexivity|]].
        split; [discriminate | split; [|reflexivity]].
        eexists. reflexivity.
    + cbn [List.find ends_loop completed_passes fst snd].
      split; [reflexivity | split; [reflexivity|]].
      split; [discriminate | split; [|now destruct e]].
      exists []. now destruct e.
Qed.

(** ** How a run ends *)

(** X1: with a paired handle, the exit of a script is decided by the
    first event that ends its loop: the reader always returns normally
    (exit status 0), whatever was raised while reading; the simple
    script returns normally on HOME, an interrupt or a [RuntimeError],
    and ends with a traceback on any other exception. *)
Theorem exit_by_cause (v : variant) (cwiid : cwiid_consts) (w : Wiimote)
    (events : list poll_event) :
  (run v cwiid (Paired w) events).2
  = match ending cwiid v events with
    | None => StillPolling
    | Some ev => exit_of v ev
    end.
Proof.
  destruct v; cbn [run].
  - rewrite reader_main_paired. cbn [snd].
    destruct (poll_run cwiid events (polling_reader w) eq_refl eq_refl
                (ex_intro _ w eq_refl)) as (_ & _ & _ & He).
    destruct (ending cwiid Reader events) as [ev|].
    + destruct He as (-> & _). reflexivity.
    + now rewrite He.
  - rewrite simple_main_paired. cbn [snd].
    destruct (loop_run cwiid events {["wiimote" := simple_wii_example.VWiimote w]})
      as (_ & _ & He).
    destruct (ending cwiid Simple events) as [ev|].
    + destruct He as (Hne & _ & Ho).
      destruct (simple_wii_example.loop cwiid _ events).2; [exact Ho | exact Ho | contradiction].
    + now rewrite He.
Qed.

(** X2: when an event ends the loop, the last things a script does are
    its message for that cause and the release of the handle.  The
    reader reports an interrupt with "Exiting..." and any exception with
    "Error reading input: ..."; the simple script reports a
    [RuntimeError] raised while polling as a failed connection, and
    prints nothing for other exceptions. *)
Theorem last_words_by_cause (v : variant) (cwiid : cwiid_consts) (w : Wiimote)
    (events : list poll_event) (ev : poll_event)
    (Hend : ending cwiid v events = Some ev) :
  exists t,
    (run v cwiid (Paired w) events).1 = t ++ last_words cwiid v ev ++ epilogue v.
Proof.
  destruct v; cbn [run].
  - rewrite reader_main_paired. cbn [fst].
    destruct (poll_spec cwiid events (polling_reader w) eq_refl eq_refl
                (ex_intro _ w eq_refl)) as (_ & [w' Hw'] & _).
    destruct (poll_run cwiid events (polling_reader w) eq_refl eq_refl
                (ex_intro _ w eq_refl)) as (_ & _ & _ & He).
    rewrite Hend in He. destruct He as (-> & [t ->] & _).
    unfold wii_remote_reader.disconnect. rewrite Hw'. cbn [fst epilogue].
    exists (prologue cwiid Reader ++ t). now rewrite <- !app_assoc.
  - rewrite simple_main_paired. cbn [fst].
    destruct (loop_run cwiid events {["wiimote" := simple_wii_example.VWiimote w]})
      as (_ & _ & He).
    rewrite Hend in He. destruct He as (Hne & [t Ht] & _).
    exists (prologue cwiid Simple ++ t). cbn [epilogue].
    destruct (simple_wii_example.loop cwiid _ events) as [[t1 locals] r].
    cbn [fst snd] in *.
    destruct r as [[] | e |]; [| |contradiction];
      rewrite <- (app_assoc (prologue cwiid Simple) t); f_equal;
      rewrite !app_assoc, Ht; reflexivity.
Qed.

Lemma last_words_by_cause_witness :
  exists t,
    (run Simple libcwiid (Paired {| state := snapshot 0 |})
       [Sample (snapshot 8); Fault (Py.RuntimeError "read failed")]).1
    = t ++ [Print "Failed to connect. Make sure your Wii remote is in discoverable mode."]
        ++ [Dev Close].
Proof.
  exact (last_words_by_cause Simple libcwiid {| state := snapshot 0 |}
           [Sample (snapshot 8); Fault (Py.RuntimeError "read failed")]
           (Fault (Py.RuntimeError "read failed")) eq_refl).
Defined.

(** X3: the only operations a script performs on the handle are the
    four of its configuration, right after pairing, and, once its loop
    has ended, one [close()] as the last of them; polling itself never
    writes to the handle, and without a handle nothing is done. *)
Theorem handle_operations (v : variant) (cwiid : cwiid_consts) (p : pairing)
    (events : list poll_event) :
  dev_ops (run v cwiid p events).1
  = match p with
    | Paired _ =>
        configuration cwiid v
          ++ (if terminated (run v cwiid p events).2 then [Close] else [])
    | PairingRaises _ => []
    end.
Proof.
  destruct p as [w | e].
  - destruct v; cbn [run].
    + rewrite reader_main_paired. cbn [fst snd].
      destruct (poll_spec cwiid events (polling_reader w) eq_refl eq_refl
                  (ex_intro _ w eq_refl)) as (_ & [w' Hw'] & _).
      destruct (poll_run cwiid events (polling_reader w) eq_refl eq_refl
                  (ex_intro _ w eq_refl)) as (Hd & _).
      rewrite !dev_ops_app, Hd.
      unfold wii_remote_reader.disconnect. rewrite Hw'.
      now destruct (wii_remote_reader.poll cwiid (polling_reader w) events).2.
    + rewrite simple_main_paired. cbn [fst snd].
      destruct (loop_run cwiid events {["wiimote" := simple_wii_example.VWiimote w]})
        as (Hd & _).
      rewrite !dev_ops_app, Hd.
      destruct (simple_wii_example.loop cwiid _ events).2 as [[] | e |];
        [reflexivity | now destruct e | reflexivity].
  - destruct v, e; reflexivity.
Qed.

(** X4: with a paired handle, a script sleeps half a second for the
    rumble and a tenth of a second after every pass of its loop that
    completes; the pass that ends the loop adds no sleep. *)
Theorem time_slept (v : variant) (cwiid : cwiid_consts) (w : Wiimote)
    (events : list poll_event) :
  slept (run v cwiid (Paired w) events).1
  = 500 + 100 * Z.of_nat (completed_passes cwiid v events).
Proof.
  destruct v; cbn [run].
  - rewrite reader_main_paired. cbn [fst].
    destruct (poll_spec cwiid events (polling_reader w) eq_refl eq_refl
                (ex_intro _ w eq_refl)) as (_ & [w' Hw'] & _).
    destruct (poll_run cwiid events (polling_reader w) eq_refl eq_refl
                (ex_intro _ w eq_refl)) as (_ & Hs & _).
    rewrite !slept_app, Hs.
    unfold wii_remote_reader.disconnect. rewrite Hw'.
    destruct (wii_remote_reader.poll cwiid (polling_reader w) events).2;
      cbn [fst]; change (slept (prologue cwiid Reader)) with 500;
      cbn [slept fold_right]; lia.
  - rewrite simple_main_paired. cbn [fst].
    destruct (loop_run cwiid events {["wiimote" := simple_wii_example.VWiimote w]})
      as (_ & Hs & _).
    rewrite !slept_app, Hs. change (slept (prologue cwiid Simple)) with 500.
    destruct (simple_wii_example.loop cwiid _ events).2 as [[] | e |];
      [| destruct e |]; cbn [simple_wii_example.handlers fst];
      rewrite ?slept_app; cbn [slept fold_right]; lia.
Qed.

(** ** After the loop has ended *)

Lemma poll_after_end (cwiid : cwiid_consts) (more events : list poll_event) :
  existsb (ends_loop cwiid Reader) events = true ->
  forall self,
    wii_remote_reader.poll cwiid self (events ++ more)
    = wii_remote_reader.poll cwiid self events.
Proof.
  induction events as [|ev events IH]; intros Hend self; [discriminate|].
  cbn [app wii_remote_reader.poll].
  destruct (wii_remote_reader.running self && wii_remote_reader.connected self);
    [|reflexivity].
  destruct ev as [s | s | e]; try reflexivity.
  destruct (wii_remote_reader.wiimote (wii_remote_reader.refresh self s));
    [|reflexivity].
  now rewrite (IH Hend).
Qed.

Lemma loop_after_end (cwiid : cwiid_consts) (more events : list poll_event) :
  existsb (ends_loop cwiid Simple) events = true ->
  forall locals,
    simple_wii_example.loop cwiid locals (events ++ more)
    = simple_wii_example.loop cwiid locals events.
Proof.
  induction events as [|ev events IH]; intros Hend locals; [discriminate|].
  cbn [app simple_wii_example.loop].
  destruct ev as [s | s | e]; try reflexivity.
  cbn [existsb ends_loop] in Hend. unfold home_pressed in Hend.
  destruct (truthy (Z.land (buttons s) (BTN_HOME cwiid))); [reflexivity|].
  now rewrite (IH Hend).
Qed.

(** X5: once an event has ended the loop of a script, the script reads
    no further event: whatever the device would report afterwards, the
    run is the same.  This holds whether or not the pairing succeeded. *)
Theorem nothing_read_after_end (v : variant) (cwiid : cwiid_consts) (p : pairing)
    (events more : list poll_event)
    (Hend : existsb (ends_loop cwiid v) events = true) :
  run v cwiid p (events ++ more) = run v cwiid p events.
Proof.
  destruct p as [w | e].
  - destruct v; cbn [run].
    + rewrite !reader_main_paired. now rewrite poll_after_end.
    + rewrite !simple_main_paired. now rewrite loop_after_end.
  - destruct v, e; reflexivity.
Qed.

Lemma nothing_read_after_end_witness :
  run Reader libcwiid (Paired {| state := snapshot 0 |})
    ([Sample (snapshot 8); Fault (Py.OtherError "read failed")]
       ++ [Sample (snapshot 0x80)])
  = run Reader libcwiid (Paired {| state := snapshot 0 |})
      [Sample (snapshot 8); Fault (Py.OtherError "read failed")].
Proof.
  apply (nothing_read_after_end Reader libcwiid (Paired {| state := snapshot 0 |})
           [Sample (snapshot 8); Fault (Py.OtherError "read failed")]
           [Sample (snapshot 0x80)]).
  reflexivity.
Defined.

(** ** The reader object after a run *)

Lemma start_paired (cwiid : cwiid_consts) (w : Wiimote) (events : list poll_event) :
  (wii_remote_reader.start cwiid wii_remote_reader.__init__ (Paired w) events).1.2
  = match (wii_remote_reader.poll cwiid (polling_reader w) events).2 with
    | Pending => (wii_remote_reader.poll cwiid (polling_reader w) events).1.2
    | _ => (wii_remote_reader.disconnect
              (wii_remote_reader.poll cwiid (polling_reader w) events).1.2).2
    end.
Proof.
  unfold wii_remote_reader.start, wii_remote_reader.read_inputs.
  simpl wii_remote_reader.connect. cbv iota beta.
  cbn [wii_remote_reader.wiimote wii_remote_reader.connected wii_remote_reader.running].
  fold (polling_reader w).
  destruct (wii_remote_reader.poll cwiid (polling_reader w) events) as [[t self'] r].
  cbn [fst snd].
  destruct r as [[] | e |]; [| |reflexivity];
    destruct (wii_remote_reader.disconnect self') as [t2 self2]; reflexivity.
Qed.

(** X6: when an event has ended the loop, [start] leaves the reader with
    [connected] false and the (closed) handle still stored; [running]
    is false after an interrupt, but still true after an exception
    raised while reading. *)
Theorem reader_after_start (cwiid : cwiid_consts) (w : Wiimote)
    (events : list poll_event) (ev : poll_event)
    (Hend : ending cwiid Reader events = Some ev) :
  let self := (wii_remote_reader.start cwiid wii_remote_reader.__init__
                 (Paired w) events).1.2 in
  wii_remote_reader.connected self = false
  /\ is_Some (wii_remote_reader.wiimote self)
  /\ wii_remote_reader.running self
     = match ev with
       | Fault (Py.RuntimeError _) | Fault (Py.OtherError _) => true
       | _ => false
       end.
Proof.
  intros self. unfold self. rewrite start_paired.
  destruct (poll_spec cwiid events (polling_reader w) eq_refl eq_refl
              (ex_intro _ w eq_refl)) as (_ & [w' Hw'] & _).
  destruct (poll_run cwiid events (polling_reader w) eq_refl eq_refl
              (ex_intro _ w eq_refl)) as (_ & _ & _ & He).
  rewrite Hend in He. destruct He as (-> & _ & Hrun).
  unfold wii_remote_reader.disconnect. rewrite Hw'. cbn.
  split; [reflexivity | split; [eauto | exact Hrun]].
Qed.

Lemma reader_after_start_witness :
  wii_remote_reader.running
    (wii_remote_reader.start libcwiid wii_remote_reader.__init__
       (Paired {| state := snapshot 0 |})
       [Sample (snapshot 8); Fault (Py.OtherError "read failed")]).1.2 = true.
Proof.
  exact (proj2 (proj2 (reader_after_start libcwiid {| state := snapshot 0 |}
                         [Sample (snapshot 8); Fault (Py.OtherError "read failed")]
                         (Fault (Py.OtherError "read failed")) eq_refl))).
Defined.

(** X7: [disconnect] does nothing without a handle; with one it calls
    [close()] and clears [connected] but keeps the handle, so that a
    second [disconnect] calls [close()] on it again. *)
Theorem disconnect_twice (self : wii_remote_reader.WiiRemoteReader) :
  let once := wii_remote_reader.disconnect self in
  let twice := wii_remote_reader.disconnect once.2 in
  wii_remote_reader.wiimote twice.2 = wii_remote_reader.wiimote self
  /\ match wii_remote_reader.wiimote self with
     | None => once = ([], self) /\ twice = ([], self)
     | Some _ =>
         closes once.1 = 1%nat /\ closes (once.1 ++ twice.1) = 2%nat
         /\ wii_remote_reader.connected once.2 = false
         /\ wii_remote_reader.connected twice.2 = false
     end.
Proof.
  unfold wii_remote_reader.disconnect.
  destruct self as [[w|] c r]; cbn; repeat split; reflexivity.
Qed.

(** ** Bits that are no button *)

Lemma land_lor_absorb (codes : list Z) (c : Z) :
  In c codes -> Z.land (fold_right Z.lor 0 codes) c = c.
Proof.
  induction codes as [|a codes IH]; intros Hin; [contradiction|].
  cbn [fold_right]. apply Z.bits_inj'. intros i Hi.
  rewrite Z.land_spec, Z.lor_spec.
  destruct Hin as [-> | Hin].
  - destruct (Z.testbit c i), (Z.testbit (fold_right Z.lor 0 codes) i); reflexivity.
  - apply IH in Hin. apply (f_equal (fun n => Z.testbit n i)) in Hin.
    rewrite Z.land_spec in Hin.
    destruct (Z.testbit a i), (Z.testbit (fold_right Z.lor 0 codes) i),
      (Z.testbit c i); simpl in *; congruence.
Qed.

Lemma land_known_code (cwiid : cwiid_consts) (B c : Z) :
  In c (wii_remote_reader.button_codes cwiid) ->
  Z.land (Z.land B (known_mask cwiid)) c = Z.land B c.
Proof.
  intros Hin. rewrite <- Z.land_assoc. f_equal.
  now apply (land_lor_absorb (map (code cwiid) declared_order)).
Qed.

Lemma pressed_buttons_known (cwiid : cwiid_consts) (B : Z) :
  wii_remote_reader.pressed_buttons cwiid (Z.land B (known_mask cwiid))
  = wii_remote_reader.pressed_buttons cwiid B.
Proof.
  unfold wii_remote_reader.pressed_buttons.
  rewrite (append_loop (fun c => truthy (Z.land (Z.land B (known_mask cwiid)) c))
             (wii_remote_reader.get_button_name cwiid)).
  rewrite (append_loop (fun c => truthy (Z.land B c))
             (wii_remote_reader.get_button_name cwiid)).
  f_equal. f_equal. apply List.filter_ext_in. intros c Hin.
  now rewrite land_known_code.
Qed.

Lemma pressed_buttons_zero (cwiid : cwiid_consts) :
  wii_remote_reader.pressed_buttons cwiid 0 = [].
Proof. reflexivity. Qed.

Lemma buttons_line_known (cwiid : cwiid_consts) (B : Z) :
  wii_remote_reader.buttons_line cwiid (Z.land B (known_mask cwiid))
  = wii_remote_reader.buttons_line cwiid B.
Proof.
  unfold wii_remote_reader.buttons_line. rewrite pressed_buttons_known.
  destruct (truthy (Z.land B (known_mask cwiid))) eqn:Hm, (truthy B) eqn:HB;
    try reflexivity.
  - apply negb_false_iff, Z.eqb_eq in HB. subst B. discriminate Hm.
  - apply negb_false_iff, Z.eqb_eq in Hm.
    rewrite <- pressed_buttons_known, Hm, pressed_buttons_zero. reflexivity.
Qed.

(** X8: the button line depends only on the bits of the bitmask that
    are bits of a button code: two bitmasks that agree on those bits
    give the same line, whatever the codes of the binding are. *)
Theorem buttons_line_ignores_other_bits (cwiid : cwiid_consts) (B B' : Z)
    (Hsame : Z.land B (known_mask cwiid) = Z.land B' (known_mask cwiid)) :
  wii_remote_reader.buttons_line cwiid B = wii_remote_reader.buttons_line cwiid B'.
Proof.
  rewrite <- (buttons_line_known cwiid B), <- (buttons_line_known cwiid B').
  now rewrite Hsame.
Qed.

Lemma buttons_line_ignores_other_bits_witness :
  wii_remote_reader.buttons_line libcwiid 0x88
  = wii_remote_reader.buttons_line libcwiid 0xE8.
Proof.
  apply (buttons_line_ignores_other_bits libcwiid 0x88 0xE8). reflexivity.
Defined.

(** X9: for one snapshot the loop of the simple script prints
    "<label> button pressed!" for exactly the buttons among A, B, 1 and
    2 whose bit is set, in that order; the other buttons apart from
    HOME are never reported. *)
Theorem report_lists_four_buttons (cwiid : cwiid_consts) (B : Z)
    (Hbits : button_bits cwiid = true) :
  simple_wii_example.report cwiid B
  = map (fun b => Print (label b +:+ " button pressed!"))
        (List.filter (pressed cwiid B) reported).
Proof.
  unfold simple_wii_example.report, reported, pressed, bit. cbn [List.filter code].
  rewrite <- !truthy_land_single_bit
    by (first [ apply (button_bits_single cwiid B_A Hbits)
              | apply (button_bits_single cwiid B_B Hbits)
              | apply (button_bits_single cwiid B_1 Hbits)
              | apply (button_bits_single cwiid B_2 Hbits) ]).
  now destruct (truthy (Z.land B (BTN_A cwiid))), (truthy (Z.land B (BTN_B cwiid))),
    (truthy (Z.land B (BTN_1 cwiid))), (truthy (Z.land B (BTN_2 cwiid))).
Qed.

Lemma report_lists_four_buttons_witness :
  simple_wii_example.report libcwiid 0x100A
  = [Print "A button pressed!"; Print "1 button pressed!"].
Proof.
  exact (report_lists_four_buttons libcwiid 0x100A eq_refl).
Defined.

(** ** More on the IR line *)

Lemma format_ir_slots (ir : list (option (Z * Z * Z))) :
  wii_remote_reader.format_ir ir
  = match present_slots ir with
    | [] => "No IR sources detected"
    | present => Py.join " | " (map (fun p => render_slot p.1 p.2) present)
    end.
Proof.
  unfold wii_remote_reader.format_ir, present_slots.
  destruct ir as [|o ir]; [reflexivity|].
  change 0 with (Z.of_nat 0). rewrite format_ir_loop_slots, app_nil_l.
  now destruct (slots_from 0 (o :: ir)).
Qed.

Lemma slots_from_app (ir1 ir2 : list (option (Z * Z * Z))) :
  forall k,
    slots_from k (ir1 ++ ir2)
    = slots_from k ir1 ++ slots_from (k + List.length ir1) ir2.
Proof.
  induction ir1 as [|o ir1 IH]; intros k.
  - cbn [app List.length]. replace (k + 0)%nat with k by lia. reflexivity.
  - cbn [app List.length]. rewrite !slots_from_cons, IH, <- app_assoc.
    now replace (S k + List.length ir1)%nat with (k + S (List.length ir1))%nat by lia.
Qed.

(** X10: absent slots at the end of the sequence do not change the IR
    line: a device that reports fewer slots and one that pads them with
    absent ones give the same text.  (Absent slots in front do count:
    the number of a source is its position.) *)
Theorem format_ir_trailing_absent (ir padding : list (option (Z * Z * Z)))
    (Habsent : forallb absent padding = true) :
  wii_remote_reader.format_ir (ir ++ padding) = wii_remote_reader.format_ir ir.
Proof.
  rewrite !format_ir_slots. unfold present_slots.
  rewrite slots_from_app.
  apply (slots_from_nil padding (0 + List.length ir)) in Habsent.
  now rewrite Habsent, app_nil_r.
Qed.

Lemma format_ir_trailing_absent_witness :
  wii_remote_reader.format_ir ([None; Some (5, 700, 2)] ++ [None; None])
  = wii_remote_reader.format_ir [None; Some (5, 700, 2)].
Proof.
  apply (format_ir_trailing_absent [None; Some (5, 700, 2)] [None; None]).
  reflexivity.
Defined.

(** ** More on the button names *)

Lemma dict_fold_some {V} (l : list (Z * V)) (m : gmap Z V) (k : Z) :
  k ∈ l.*1 ->
  exists v, (k, v) ∈ l
            /\ fold_left (fun m kv => <[kv.1 := kv.2]> m) l m !! k = Some v.
Proof.
  revert m. induction l as [|[k' v'] l IH]; intros m Hin; simpl.
  - now apply elem_of_nil in Hin.
  - destruct (decide (k ∈ l.*1)) as [Hl | Hl].
    + destruct (IH (<[k' := v']> m) Hl) as (v & Hv & Hlook).
      exists v. split; [now apply elem_of_cons; right | exact Hlook].
    + rewrite fmap_cons in Hin. apply elem_of_cons in Hin as [-> | Hin]; [|contradiction].
      exists v'. split; [apply elem_of_cons; now left|].
      rewrite dict_fold_absent by assumption. apply lookup_insert_eq.
Qed.

Lemma label_not_unknown (b : Button) (s : string) : label b <> "UNKNOWN(" +:+ s.
Proof. destruct b; discriminate. Qed.

Lemma get_button_name_of_code (cwiid : cwiid_consts) (button : Z) :
  (exists b, button = code cwiid b) ->
  exists b, button = code cwiid b
            /\ wii_remote_reader.get_button_name cwiid button = label b.
Proof.
  intros [b Hb]. rewrite button_name_entries. unfold dict.
  destruct (dict_fold_some ((fun b => (code cwiid b, label b)) <$> declared_order)
              ∅ button) as (v & Hv & ->).
  - rewrite <- list_fmap_compose. rewrite Hb.
    apply (list_elem_of_fmap_2 (fun b => code cwiid b)), in_declared_order.
  - apply list_elem_of_fmap in Hv as (b' & Heq & _). injection Heq as -> ->.
    exists b'. split; reflexivity.
Qed.

(** X11: whatever the eleven codes of the binding are, even if some of
    them coincide, [get_button_name] returns the label of a button with
    exactly that code when there is one, and the text "UNKNOWN(code)"
    if and only if the integer is none of the codes. *)
Theorem get_button_name_unknown_iff (cwiid : cwiid_consts) (button : Z) :
  ((exists b, button = code cwiid b) ->
   exists b, button = code cwiid b
             /\ wii_remote_reader.get_button_name cwiid button = label b)
  /\ (wii_remote_reader.get_button_name cwiid button
      = "UNKNOWN(" +:+ Py.str button +:+ ")"
      <-> forall b, button <> code cwiid b).
Proof.
  split; [apply get_button_name_of_code|]. split.
  - intros Hunk b Hb.
    destruct (get_button_name_of_code cwiid button (ex_intro _ b Hb)) as (b' & _ & Hlab).
    rewrite Hlab in Hunk. now apply label_not_unknown in Hunk.
  - apply get_button_name_unknown.
Qed.

Lemma get_button_name_unknown_iff_witness :
  exists b, 8 = code libcwiid b
            /\ wii_remote_reader.get_button_name libcwiid 8 = label b.
Proof.
  apply (proj1 (get_button_name_unknown_iff libcwiid 8)). now exists B_A.
Defined.

(** X13: every name [read_inputs] puts on the button line is the label
    of a button whose code has a bit in common with the bitmask: the
    fallback "UNKNOWN(...)" of [get_button_name] never reaches the
    line, whatever the codes of the binding are. *)
Theorem pressed_buttons_are_labels (cwiid : cwiid_consts) (B : Z) (name : string)
    (Hin : In name (wii_remote_reader.pressed_buttons cwiid B)) :
  (exists b, name = label b /\ truthy (Z.land B (code cwiid b)) = true)
  /\ forall s, name <> "UNKNOWN(" +:+ s.
Proof.
  unfold wii_remote_reader.pressed_buttons in Hin.
  rewrite (append_loop (fun c => truthy (Z.land B c))
             (wii_remote_reader.get_button_name cwiid)) in Hin.
  rewrite app_nil_l in Hin. apply in_map_iff in Hin as (c & <- & Hc).
  apply filter_In in Hc as [Hc Hpressed].
  change (wii_remote_reader.button_codes cwiid)
    with (map (code cwiid) declared_order) in Hc.
  apply in_map_iff in Hc as (b0 & Hb0 & _).
  destruct (get_button_name_of_code cwiid c (ex_intro _ b0 (eq_sym Hb0)))
    as (b & Hb & Hlab).
  rewrite Hlab. split.
  - exists b. split; [reflexivity | now rewrite <- Hb].
  - intros s. apply label_not_unknown.
Qed.

Lemma pressed_buttons_are_labels_witness :
  exists b, "HOME" = label b /\ truthy (Z.land 0x88 (code libcwiid b)) = true.
Proof.
  apply (pressed_buttons_are_labels libcwiid 0x88 "HOME"). simpl. tauto.
Defined.

(** ** Pairing that raises *)

(** X12: when [cwiid.Wiimote()] raises, the reader script reads no
    event and catches only [RuntimeError]: then it prints "Could not
    connect to Wii remote" and returns normally; an interrupt or any
    other exception during pairing ends it with a traceback, that line
    not printed.  (The simple script also catches the interrupt.) *)
Theorem pairing_raises (cwiid : cwiid_consts) (e : Py.exn) (events : list poll_event) :
  (wii_remote_reader.main cwiid (PairingRaises e) events).2
  = match e with
    | Py.RuntimeError _ => Exit0
    | _ => Traceback e
    end
  /\ (In (Print "Could not connect to Wii remote")
         (wii_remote_reader.main cwiid (PairingRaises e) events).1
      <-> exists msg, e = Py.RuntimeError msg)
  /\ wii_remote_reader.main cwiid (PairingRaises e) events
     = wii_remote_reader.main cwiid (PairingRaises e) []
  /\ (simple_wii_example.main cwiid (PairingRaises Py.KeyboardInterrupt) events).2
     = Exit0.
Proof.
  split; [now destruct e | split; [|split; [now destruct e | reflexivity]]].
  destruct e as [msg | | msg]; simpl; split.
  - eauto.
  - tauto.
  - intros [H | [H | [H | [H | []]]]]; discriminate H.
  - intros [msg H]. discriminate H.
  - intros [H | [H | [H | [H | []]]]]; discriminate H.
  - intros [msg' H]. discriminate H.
Qed.
